(** * Agent auto-update controller: [Updater.Enable] and [Updater.Disable]

    A shallow embedding of [lib/autoupdate/agent/updater.go].

    The Go code acts on two kinds of state: the file system holding
    [update.yaml], and the outside world its collaborators act on
    (installed version directories, symlinks, systemd, the network).
    The embedding threads both through a state-and-error monad [M]: a Go
    function returning [error] becomes an [M unit], a Go [return err]
    becomes [fail].  Every operation also gives the trace of the
    collaborator calls it made, each an [Event] with the call's arguments
    and its result.

    What lies outside the file is taken as a parameter: the YAML codec,
    [renameio], [libutils.ParseAddr], [webclient.Find], and the
    [Installer] and [Process] interfaces. *)

From Stdlib Require Import String Ascii List ZArith Bool Lia Setoid.
Import ListNotations.
Local Open Scope string_scope.

(** ** Errors *)

(** Go [error] values.  The sentinels are compared by identity; [Errorf]
    is [trace.Errorf] without a [%w] verb (format string and the rendered
    arguments), [Errorfw] is [trace.Errorf] with one [%w] verb, whose
    operand [errors.Unwrap] returns.  A nil [error] is [None]. *)
Inductive error : Type :=
| ErrLinked
| ErrNotNeeded
| ErrNotSupported
| context_Canceled
| fs_ErrNotExist
| errors_New (msg : string)
| Errorf (format : string) (args : list string)
| Errorfw (format : string) (args : list string) (wrapped : error).

Fixpoint error_eqb (a b : error) : bool :=
  match a, b with
  | ErrLinked, ErrLinked => true
  | ErrNotNeeded, ErrNotNeeded => true
  | ErrNotSupported, ErrNotSupported => true
  | context_Canceled, context_Canceled => true
  | fs_ErrNotExist, fs_ErrNotExist => true
  | errors_New m, errors_New m' => String.eqb m m'
  | Errorf f xs, Errorf f' xs' =>
      String.eqb f f' && if list_eq_dec string_dec xs xs' then true else false
  | Errorfw f xs w, Errorfw f' xs' w' =>
      String.eqb f f' && (if list_eq_dec string_dec xs xs' then true else false)
      && error_eqb w w'
  | _, _ => false
  end.

(** [errors.Is]: walk the [Unwrap] chain looking for the target. *)
Fixpoint errors_Is (err target : error) : bool :=
  error_eqb err target ||
  match err with
  | Errorfw _ _ wrapped => errors_Is wrapped target
  | _ => false
  end.

(** [trace.Wrap] attaches a stack trace and nothing else. *)
Definition trace_Wrap (err : error) : error := err.

(** ** Data model *)

Definition cdnURITemplate : string :=
  "https://cdn.teleport.dev/teleport{{if .Enterprise}}-ent{{end}}-v{{.Version}}-{{.OS}}-{{.Arch}}{{if .FIPS}}-fips{{end}}-bin.tar.gz".

Definition updateConfigName : string := "update.yaml".
Definition updateConfigVersion : string := "v1".
Definition updateConfigKind : string := "update_config".

Record UpdateSpec : Type := mkUpdateSpec {
  Proxy : string;
  Group : string;
  URLTemplate : string;
  Enabled : bool
}.

Record UpdateStatus : Type := mkUpdateStatus {
  ActiveVersion : string;
  BackupVersion : string
}.

Record UpdateConfig : Type := mkUpdateConfig {
  Version : string;
  Kind : string;
  Spec : UpdateSpec;
  Status : UpdateStatus
}.

(** The zero value of [UpdateSpec] and [UpdateStatus]. *)
Definition zeroSpec : UpdateSpec := mkUpdateSpec "" "" "" false.
Definition zeroStatus : UpdateStatus := mkUpdateStatus "" "".

(** Field assignments on the local [cfg]. *)
Definition set_Enabled (b : bool) (cfg : UpdateConfig) : UpdateConfig :=
  mkUpdateConfig (Version cfg) (Kind cfg)
    (mkUpdateSpec (Proxy (Spec cfg)) (Group (Spec cfg)) (URLTemplate (Spec cfg)) b)
    (Status cfg).

Definition set_Spec (spec : UpdateSpec) (cfg : UpdateConfig) : UpdateConfig :=
  mkUpdateConfig (Version cfg) (Kind cfg) spec (Status cfg).

Definition set_Status (st : UpdateStatus) (cfg : UpdateConfig) : UpdateConfig :=
  mkUpdateConfig (Version cfg) (Kind cfg) (Spec cfg) st.

(** [InstallFlags] is an [int] bit set: [1 << iota]. *)
Definition InstallFlags : Type := Z.
Definition FlagEnterprise : InstallFlags := Z.shiftl 1 0.
Definition FlagFIPS : InstallFlags := Z.shiftl 1 1.

Record OverrideConfig : Type := mkOverrideConfig {
  override_Proxy : string;
  override_Group : string;
  override_URLTemplate : string;
  ForceVersion : string
}.

(** The fields of [webclient.Config] that [Enable] sets (the certificate
    pool and the context are left out), and the fields of the response it
    reads. *)
Record webclient_Config : Type := mkWebclientConfig {
  ProxyAddr : string;
  Insecure : bool;
  Timeout_seconds : Z;
  UpdateGroup : string
}.

Record PingResponse : Type := mkPingResponse {
  AutoUpdate_AgentVersion : string;
  Edition : string;
  FIPS : bool
}.

(** ** Strings *)

(** [strings.ToLower] on the ASCII letters.  (Go also lowers letters
    outside ASCII; none of them becomes a character of ["https://"].) *)
Definition lower_ascii (c : ascii) : ascii :=
  let n := nat_of_ascii c in
  if (65 <=? n)%nat && (n <=? 90)%nat then ascii_of_nat (n + 32) else c.

Fixpoint strings_ToLower (s : string) : string :=
  match s with
  | EmptyString => EmptyString
  | String c rest => String (lower_ascii c) (strings_ToLower rest)
  end.

Definition strings_HasPrefix (s pre : string) : bool := String.prefix pre s.

(** ** Log levels and the call trace *)

Inductive Level : Type := LevelInfo | LevelWarn | LevelError.

Inductive Event : Type :=
| EvFind (cfg : webclient_Config) (res : error + PingResponse)
| EvRemove (version : string) (err : option error)
| EvInstall (version template : string) (flags : InstallFlags) (err : option error)
| EvLink (version : string) (err : option error)
| EvRevert (ok : bool)
| EvList (res : error + list string)
| EvSync (err : option error)
| EvReload (err : option error)
| EvReplace (path content : string)
| EvLog (lvl : Level) (msg : string).

(** The file system: what [os.Open] gives for a path, an error (among
    them [fs.ErrNotExist]) or the file's content. *)
Definition FS : Type := string -> error + string.

Definition fs_replace (path content : string) (fs : FS) : FS :=
  fun p => if String.eqb p path then inr content else fs p.

Inductive result (A : Type) : Type :=
| Ok (a : A)
| Err (e : error).
Arguments Ok {A} a.
Arguments Err {A} e.

Section Agent.

(** The world the collaborators act on. *)
Variable W : Type.

(** ** Collaborators *)

(** [Link] returns the revert closure, itself an action on the world.
    ([List] is written [List_], the name being a module's.) *)
Record Installer : Type := mkInstaller {
  Install : string -> string -> InstallFlags -> W -> option error * W;
  Link : string -> W -> (error + (W -> bool * W)) * W;
  List_ : W -> (error + list string) * W;
  Remove : string -> W -> option error * W
}.

Record Process : Type := mkProcess {
  Reload : W -> option error * W;
  Sync : W -> option error * W
}.

Record Updater : Type := mkUpdater {
  InsecureSkipVerify : bool;
  ConfigPath : string;
  Installer_ : Installer;
  Process_ : Process
}.

(** What [Enable] and [Disable] use from outside the package: [yaml.v3],
    [renameio], [libutils.ParseAddr] (of which [Enable] reads the [Addr]
    field) and [webclient.Find]. *)
Record Platform : Type := mkPlatform {
  yaml_Decode : string -> error + UpdateConfig;
  yaml_Encode : UpdateConfig -> error + string;
  renameio_NewPendingFile : string -> W -> option error * W;
  renameio_CloseAtomicallyReplace : string -> W -> option error * W;
  libutils_ParseAddr : string -> error + string;
  webclient_Find : webclient_Config -> W -> (error + PingResponse) * W
}.

Variable env : Platform.

(** ** The monad *)

(** The state an operation acts on.  The collaborators act on the world
    only: the file system changes by [writeConfig] and by nothing else. *)
Record State : Type := mkState {
  st_fs : FS;
  st_world : W
}.

(** An operation gives a result, the state it leaves and the calls it
    made, in order. *)
Definition M (A : Type) : Type := State -> result A * State * list Event.

Definition ret {A} (a : A) : M A := fun s => (Ok a, s, []).

Definition fail {A} (e : error) : M A := fun s => (Err e, s, []).

Definition bind {A B} (m : M A) (k : A -> M B) : M B :=
  fun s =>
    match m s with
    | (Ok a, s1, t1) =>
        match k a s1 with
        | (r, s2, t2) => (r, s2, (t1 ++ t2)%list)
        end
    | (Err e, s1, t1) => (Err e, s1, t1)
    end.

Notation "x <- m ;; k" := (bind m (fun x => k))
  (at level 61, m at next level, right associativity).
Notation "m ;;; k" := (bind m (fun _ => k))
  (at level 61, right associativity).

(** [if err != nil { return wrap(err) }] around a call that can fail. *)
Definition or_return {A} (wrap : error -> error) (m : M A) : M A :=
  fun s =>
    match m s with
    | (Ok a, s1, t) => (Ok a, s1, t)
    | (Err e, s1, t) => (Err (wrap e), s1, t)
    end.

Definition emit (ev : Event) : M unit := fun s => (Ok tt, s, [ev]).

Definition log (lvl : Level) (msg : string) : M unit := emit (EvLog lvl msg).

(** A collaborator call: act on the world, record the call. *)
Definition call {R} (op : W -> R * W) (ev : R -> Event) : M R :=
  fun s =>
    let (r, w') := op (st_world s) in
    (Ok r, mkState (st_fs s) w', [ev r]).

(** A step of [renameio] before the rename: acts on the world only. *)
Definition sys {R} (op : W -> R * W) : M R :=
  fun s =>
    let (r, w') := op (st_world s) in
    (Ok r, mkState (st_fs s) w', []).

Definition os_Open (path : string) : M (error + string) :=
  fun s => (Ok (st_fs s path), s, []).

(** The rename that ends [CloseAtomicallyReplace]. *)
Definition rename_into (path content : string) : M unit :=
  fun s =>
    (Ok tt, mkState (fs_replace path content (st_fs s)) (st_world s),
     [EvReplace path content]).

(** ** The config store *)

Definition readConfig (path : string) : M UpdateConfig :=
  f <- os_Open path ;;
  match f with
  | inl err =>
      if errors_Is err fs_ErrNotExist
      then ret (mkUpdateConfig updateConfigVersion updateConfigKind zeroSpec zeroStatus)
      else fail (Errorfw "failed to open: %w" [] err)
  | inr content =>
      match yaml_Decode env content with
      | inl err => fail (Errorfw "failed to parse: %w" [] err)
      | inr cfg =>
          if negb (String.eqb (Kind cfg) updateConfigKind)
          then fail (Errorf "invalid kind %q" [Kind cfg])
          else if negb (String.eqb (Version cfg) updateConfigVersion)
          then fail (Errorf "invalid version %q" [Version cfg])
          else ret cfg
      end
  end.

(** On every error path the deferred [t.Cleanup()] removes the pending
    temporary file; the target is replaced only by the rename at the end
    of [CloseAtomicallyReplace]. *)
Definition writeConfig (filename : string) (cfg : UpdateConfig) : M unit :=
  r <- sys (renameio_NewPendingFile env filename) ;;
  match r with
  | Some err => fail (trace_Wrap err)
  | None =>
      match yaml_Encode env cfg with
      | inl err => fail (trace_Wrap err)
      | inr content =>
          r <- sys (renameio_CloseAtomicallyReplace env filename) ;;
          match r with
          | Some err => fail (trace_Wrap err)
          | None => rename_into filename content
          end
      end
  end.

(** [validateConfigSpec] writes through its [spec] pointer and returns an
    error: here it returns the written spec and the error. *)
Definition validateConfigSpec (spec : UpdateSpec) (override : OverrideConfig)
  : UpdateSpec * option error :=
  let spec :=
    if negb (String.eqb (override_Proxy override) "")
    then mkUpdateSpec (override_Proxy override) (Group spec) (URLTemplate spec) (Enabled spec)
    else spec in
  let spec :=
    if negb (String.eqb (override_Group override) "")
    then mkUpdateSpec (Proxy spec) (override_Group override) (URLTemplate spec) (Enabled spec)
    else spec in
  let spec :=
    if negb (String.eqb (override_URLTemplate override) "")
    then mkUpdateSpec (Proxy spec) (Group spec) (override_URLTemplate override) (Enabled spec)
    else spec in
  if negb (String.eqb (URLTemplate spec) "") &&
     negb (strings_HasPrefix (strings_ToLower (URLTemplate spec)) "https://")
  then (spec, Some (Errorf "Teleport download URL must use TLS (https://)" []))
  else if String.eqb (Proxy spec) ""
  then (spec, Some (Errorf "Teleport proxy URL must be specified with --proxy or present in %s"
                      [updateConfigName]))
  else (spec, None).

(** ** Enable *)

(** [Enable] is one Go function of some hundred and forty lines, divided
    by its own comments into blocks.  Each block is a definition here,
    named after its comment, and [Enable] runs them in order; an early
    [return] inside a block is a [fail], which [bind] propagates.  Log
    attributes (the error and version values attached to a message) are
    left out of the trace. *)

(** Lines 268-293, [// Lookup target version from the proxy]: the forced
    version, or the one the proxy advertises, with the install flags. *)
Definition lookup_target_version (u : Updater) (cfg : UpdateConfig) (addr : string)
    (override : OverrideConfig) : M (string * InstallFlags) :=
  let desiredVersion := ForceVersion override in
  let flags : InstallFlags := 0%Z in
  target <-
    (if String.eqb desiredVersion ""
     then
       resp <- call (webclient_Find env
                       (mkWebclientConfig addr (InsecureSkipVerify u) 30 (Group (Spec cfg))))
                    (EvFind (mkWebclientConfig addr (InsecureSkipVerify u) 30 (Group (Spec cfg)))) ;;
       match resp with
       | inl err => fail (Errorfw "failed to request version from proxy: %w" [] err)
       | inr resp =>
           let flags := if String.eqb (Edition resp) "ent"
                        then Z.lor flags FlagEnterprise else flags in
           let flags := if FIPS resp then Z.lor flags FlagFIPS else flags in
           ret (AutoUpdate_AgentVersion resp, flags)
       end
     else ret (desiredVersion, flags)) ;;
  if String.eqb (fst target) ""
  then fail (Errorf "agent version not available from Teleport cluster" [])
  else ret target.

(** Lines 294-306, the [switch] on the backup version. *)
Definition remove_backup (u : Updater) (cfg : UpdateConfig) (desiredVersion : string)
  : M unit :=
  if String.eqb (BackupVersion (Status cfg)) ""
     || String.eqb (BackupVersion (Status cfg)) desiredVersion
     || String.eqb (BackupVersion (Status cfg)) (ActiveVersion (Status cfg))
  then ret tt
  else if String.eqb desiredVersion (ActiveVersion (Status cfg))
  then (* Keep backup version if we are only verifying active version *)
    ret tt
  else
    err <- call (Remove (Installer_ u) (BackupVersion (Status cfg)))
                (EvRemove (BackupVersion (Status cfg))) ;;
    match err with
    | Some _ =>
        (* this could happen if it was already removed due to a failed installation *)
        log LevelWarn "Failed to remove backup version of Teleport before new install."
    | None => ret tt
    end.

(** Lines 310-321, [// Install the desired version (or validate existing
    installation)]; gives the revert closure of [Link]. *)
Definition install_desired_version (u : Updater) (cfg : UpdateConfig)
    (desiredVersion : string) (flags : InstallFlags) : M (W -> bool * W) :=
  let template := URLTemplate (Spec cfg) in
  let template := if String.eqb template "" then cdnURITemplate else template in
  err <- call (Install (Installer_ u) desiredVersion template flags)
              (EvInstall desiredVersion template flags) ;;
  match err with
  | Some err => fail (Errorfw "failed to install: %w" [] err)
  | None =>
      linked <- call (Link (Installer_ u) desiredVersion)
                     (fun r => EvLink desiredVersion
                                 match r with inl err => Some err | inr _ => None end) ;;
      match linked with
      | inl err => fail (Errorfw "failed to link: %w" [] err)
      | inr revert => ret revert
      end
  end.

(** Lines 328-342, [// Sync process configuration after linking]. *)
Definition sync_after_linking (u : Updater) (desiredVersion : string)
    (revert : W -> bool * W) : M unit :=
  err <- call (Sync (Process_ u)) EvSync ;;
  match err with
  | Some err =>
      if errors_Is err context_Canceled
      then fail (Errorf "sync canceled" [])
      else
        (* If sync fails, we may have left the host in a bad state, so we
           revert linking and re-Sync. *)
        log LevelError "Reverting symlinks due to invalid configuration." ;;;
        ok <- call revert EvRevert ;;
        (if negb ok
         then log LevelError "Failed to revert Teleport symlinks. Installation likely broken."
         else
           err <- call (Sync (Process_ u)) EvSync ;;
           match err with
           | Some _ => log LevelError "Failed to sync configuration after failed restart."
           | None => ret tt
           end) ;;;
        log LevelWarn "Teleport updater encountered a configuration error and successfully reverted the installation." ;;;
        fail (Errorfw "failed to validate configuration for new version %q of Teleport: %w"
                [desiredVersion] err)
  | None => ret tt
  end.

(** Lines 346-369, [// Restart Teleport if necessary]; gives [cfg] with
    the status as the block leaves it. *)
Definition restart_if_necessary (u : Updater) (cfg : UpdateConfig)
    (desiredVersion : string) (revert : W -> bool * W) : M UpdateConfig :=
  if negb (String.eqb (ActiveVersion (Status cfg)) desiredVersion)
  then
    log LevelInfo "Target version successfully installed." ;;;
    err <- call (Reload (Process_ u)) EvReload ;;
    (match err with
     | Some err =>
         if negb (errors_Is err ErrNotNeeded)
         then
           if errors_Is err context_Canceled
           then fail (Errorf "reload canceled" [])
           else
             (* If reloading Teleport at the new version fails, revert,
                resync, and reload. *)
             log LevelError "Reverting symlinks due to failed restart." ;;;
             ok <- call revert EvRevert ;;
             (if negb ok
              then log LevelError "Failed to revert Teleport symlinks to older version. Installation likely broken."
              else
                err <- call (Sync (Process_ u)) EvSync ;;
                match err with
                | Some _ =>
                    log LevelError "Invalid configuration found after reverting Teleport to older version. Installation likely broken."
                | None =>
                    err <- call (Reload (Process_ u)) EvReload ;;
                    match err with
                    | Some err =>
                        if negb (errors_Is err ErrNotNeeded)
                        then log LevelError "Failed to revert Teleport to older version. Installation likely broken."
                        else ret tt
                    | None => ret tt
                    end
                end) ;;;
             log LevelWarn "Teleport updater encountered a configuration error and successfully reverted the installation." ;;;
             fail (Errorfw "failed to start new version %q of Teleport: %w"
                     [desiredVersion] err)
         else ret tt
     | None => ret tt
     end) ;;;
    (* cfg.Status.BackupVersion = cfg.Status.ActiveVersion
       cfg.Status.ActiveVersion = desiredVersion *)
    ret (set_Status (mkUpdateStatus desiredVersion (ActiveVersion (Status cfg))) cfg)
  else
    log LevelInfo "Target version successfully validated." ;;;
    ret cfg.

(** Lines 370-382, the backup version message and [// Check if manual
    cleanup might be needed]. *)
Definition check_cleanup (u : Updater) (cfg : UpdateConfig) : M unit :=
  (if negb (String.eqb (BackupVersion (Status cfg)) "")
   then log LevelInfo "Backup version set."
   else ret tt) ;;;
  versions <- call (List_ (Installer_ u)) EvList ;;
  match versions with
  | inl err => fail (Errorfw "failed to list installed versions: %w" [] err)
  | inr versions =>
      if (2 <? length versions)%nat
      then log LevelWarn "More than 2 versions of Teleport installed. Version directory may need cleanup to save space."
      else ret tt
  end.

Definition Enable (u : Updater) (override : OverrideConfig) : M unit :=
  (* Read configuration from update.yaml and override any new values passed as flags. *)
  cfg <- or_return (Errorfw "failed to read %s: %w" [updateConfigName])
           (readConfig (ConfigPath u)) ;;
  let (spec, verr) := validateConfigSpec (Spec cfg) override in
  let cfg := set_Spec spec cfg in
  match verr with
  | Some err => fail (trace_Wrap err)
  | None =>
      match libutils_ParseAddr env (Proxy (Spec cfg)) with
      | inl err => fail (Errorfw "failed to parse proxy server address: %w" [] err)
      | inr addr =>
          target <- lookup_target_version u cfg addr override ;;
          let (desiredVersion, flags) := target : string * InstallFlags in
          remove_backup u cfg desiredVersion ;;;
          revert <- install_desired_version u cfg desiredVersion flags ;;
          sync_after_linking u desiredVersion revert ;;;
          cfg <- restart_if_necessary u cfg desiredVersion revert ;;
          check_cleanup u cfg ;;;
          (* Always write the configuration file if enable succeeds. *)
          let cfg := set_Enabled true cfg in
          or_return (Errorfw "failed to write %s: %w" [updateConfigName])
            (writeConfig (ConfigPath u) cfg) ;;;
          log LevelInfo "Configuration updated."
      end
  end.

(** ** Disable *)

Definition Disable (u : Updater) : M unit :=
  cfg <- or_return (Errorfw "failed to read %s: %w" [updateConfigName])
           (readConfig (ConfigPath u)) ;;
  if negb (Enabled (Spec cfg))
  then log LevelInfo "Automatic updates already disabled."
  else
    let cfg := set_Enabled false cfg in
    or_return (Errorfw "failed to write %s: %w" [updateConfigName])
      (writeConfig (ConfigPath u) cfg).

(** Running an operation from a file system and a world. *)
Definition run {A} (m : M A) (fs : FS) (w : W) : result A * State * list Event :=
  m (mkState fs w).

End Agent.

Arguments Install {W} _ _ _ _ _.
Arguments Link {W} _ _ _.
Arguments List_ {W} _ _.
Arguments Remove {W} _ _ _.
Arguments Reload {W} _ _.
Arguments Sync {W} _ _.
Arguments InsecureSkipVerify {W} _.
Arguments ConfigPath {W} _.
Arguments Installer_ {W} _.
Arguments Process_ {W} _.
Arguments yaml_Decode {W} _ _.
Arguments yaml_Encode {W} _ _.
Arguments renameio_NewPendingFile {W} _ _ _.
Arguments renameio_CloseAtomicallyReplace {W} _ _ _.
Arguments libutils_ParseAddr {W} _ _.
Arguments webclient_Find {W} _ _ _.
Arguments st_fs {W} _ _.
Arguments st_world {W} _.
Arguments mkState {W} _ _.
Arguments readConfig {W} env path _.
Arguments writeConfig {W} env filename cfg _.
Arguments Enable {W} env u override _.
Arguments Disable {W} env u _.
Arguments run {W A} m fs w.

(** ** Observing a trace *)

(** The kind of call an event records. *)
Inductive CallKind : Type :=
| KFind | KRemove | KInstall | KLink | KRevert | KList | KSync | KReload | KReplace | KLog.

Definition kind_of (ev : Event) : CallKind :=
  match ev with
  | EvFind _ _ => KFind
  | EvRemove _ _ => KRemove
  | EvInstall _ _ _ _ => KInstall
  | EvLink _ _ => KLink
  | EvRevert _ => KRevert
  | EvList _ => KList
  | EvSync _ => KSync
  | EvReload _ => KReload
  | EvReplace _ _ => KReplace
  | EvLog _ _ => KLog
  end.

(** A trace made of calls of the given kinds only. *)
Definition only (ks : list CallKind) (t : list Event) : Prop :=
  forall ev, In ev t -> In (kind_of ev) ks.

(** Calls on the [Installer] interface. *)
Definition is_installer_call (ev : Event) : bool :=
  match ev with
  | EvRemove _ _ | EvInstall _ _ _ _ | EvLink _ _ | EvList _ => true
  | _ => false
  end.

(** Calls on the [Process] interface, and of the revert closure. *)
Definition is_process_call (ev : Event) : bool :=
  match ev with
  | EvSync _ | EvReload _ | EvRevert _ => true
  | _ => false
  end.

Definition installer_calls (t : list Event) : list Event := filter is_installer_call t.

Definition process_calls (t : list Event) : list Event := filter is_process_call t.

(** A call whose result makes [Enable] return an error: a failed
    discovery, [Install], [Link], [Sync] or [List], and a [Reload] failing
    with anything but [ErrNotNeeded].  ([Remove] and the revert closure
    may fail without that.) *)
Definition aborting (ev : Event) : bool :=
  match ev with
  | EvFind _ (inl _) => true
  | EvInstall _ _ _ (Some _) => true
  | EvLink _ (Some _) => true
  | EvSync (Some _) => true
  | EvReload (Some err) => negb (errors_Is err ErrNotNeeded)
  | EvList (inl _) => true
  | _ => false
  end.

(** ** A scripted platform

    A test double in the manner of a Go mock: the world is the list of
    replies still to be given, and every collaborator call takes the next
    one.  A call that finds the script exhausted succeeds. *)
Module Scripted.

Inductive Reply : Type :=
| Succeed
| FailWith (e : error)
| Versions (vs : list string)
| Ping (resp : PingResponse)
| Reverted (ok : bool).

Definition World : Type := list Reply.

Definition next_error (w : World) : option error * World :=
  match w with
  | FailWith e :: w' => (Some e, w')
  | _ :: w' => (None, w')
  | [] => (None, [])
  end.

Definition revert (w : World) : bool * World :=
  match w with
  | Reverted ok :: w' => (ok, w')
  | _ :: w' => (true, w')
  | [] => (true, [])
  end.

Definition installer : Installer World :=
  mkInstaller World
    (fun _ _ _ => next_error)
    (fun _ w => match next_error w with
                | (Some e, w') => (inl e, w')
                | (None, w') => (inr revert, w')
                end)
    (fun w => match w with
              | FailWith e :: w' => (inl e, w')
              | Versions vs :: w' => (inr vs, w')
              | _ :: w' => (inr [], w')
              | [] => (inr [], [])
              end)
    (fun _ => next_error).

Definition process : Process World := mkProcess World next_error next_error.

(** A codec standing in for YAML: every character of a field is preceded
    by a dot, every field closed by a semicolon. *)
Fixpoint put_field (s rest : string) : string :=
  match s with
  | EmptyString => String ";" rest
  | String c s' => String "." (String c (put_field s' rest))
  end.

Fixpoint get_field (s : string) : option (string * string) :=
  match s with
  | String ";" rest => Some (EmptyString, rest)
  | String "." (String c s') =>
      match get_field s' with
      | Some (f, rest) => Some (String c f, rest)
      | None => None
      end
  | _ => None
  end.

Definition encode (cfg : UpdateConfig) : string :=
  put_field (Version cfg) (put_field (Kind cfg)
    (put_field (Proxy (Spec cfg)) (put_field (Group (Spec cfg))
      (put_field (URLTemplate (Spec cfg))
        (put_field (if Enabled (Spec cfg) then "true" else "false")
          (put_field (ActiveVersion (Status cfg))
            (put_field (BackupVersion (Status cfg)) ""))))))).

Definition decode (s : string) : error + UpdateConfig :=
  match get_field s with
  | Some (version, s) =>
  match get_field s with
  | Some (kind, s) =>
  match get_field s with
  | Some (proxy, s) =>
  match get_field s with
  | Some (group, s) =>
  match get_field s with
  | Some (template, s) =>
  match get_field s with
  | Some (enabled, s) =>
  match get_field s with
  | Some (active, s) =>
  match get_field s with
  | Some (backup, EmptyString) =>
      if String.eqb enabled "true" || String.eqb enabled "false"
      then inr (mkUpdateConfig version kind
                  (mkUpdateSpec proxy group template (String.eqb enabled "true"))
                  (mkUpdateStatus active backup))
      else inl (errors_New "cannot unmarshal into bool")
  | _ => inl (errors_New "unexpected end of document") end
  | _ => inl (errors_New "unexpected end of document") end
  | _ => inl (errors_New "unexpected end of document") end
  | _ => inl (errors_New "unexpected end of document") end
  | _ => inl (errors_New "unexpected end of document") end
  | _ => inl (errors_New "unexpected end of document") end
  | _ => inl (errors_New "unexpected end of document") end
  | _ => inl (errors_New "unexpected end of document") end.

(** A proxy address parses unless it contains a space. *)
Fixpoint has_space (s : string) : bool :=
  match s with
  | EmptyString => false
  | String c s' => Ascii.eqb c " " || has_space s'
  end.

Definition platform : Platform World :=
  mkPlatform World
    decode
    (fun cfg => inr (encode cfg))
    (fun _ => next_error)
    (fun _ => next_error)
    (fun s => if has_space s then inl (errors_New "failed to parse address") else inr s)
    (fun _ w => match w with
                | Ping resp :: w' => (inr resp, w')
                | FailWith e :: w' => (inl e, w')
                | _ :: w' => (inl (errors_New "unexpected reply"), w')
                | [] => (inl (errors_New "no reply"), [])
                end).

Definition updater : Updater World :=
  mkUpdater World false "/var/lib/teleport/versions/update.yaml" installer process.

(** A host with no file at all, and a host with one config file. *)
Definition no_files : FS := fun _ => inl fs_ErrNotExist.

Definition with_config (cfg : UpdateConfig) : FS :=
  fs_replace (ConfigPath updater) (encode cfg) no_files.

Definition config (proxy : string) (enabled : bool) (active backup : string) : UpdateConfig :=
  mkUpdateConfig updateConfigVersion updateConfigKind
    (mkUpdateSpec proxy "" "" enabled) (mkUpdateStatus active backup).

Definition proxy_override (proxy : string) : OverrideConfig :=
  mkOverrideConfig proxy "" "" "".

Definition force_override (proxy version : string) : OverrideConfig :=
  mkOverrideConfig proxy "" "" version.

(** The scenarios: a host running 15.0.0, with and without the backup
    14.3.0, whose proxy advertises the enterprise build 15.1.0. *)
Definition host_15_0 : FS := with_config (config "example.com" true "15.0.0" "").

Definition host_15_0_backup_14_3 : FS :=
  with_config (config "example.com" true "15.0.0" "14.3.0").

Definition ping_15_1 : PingResponse := mkPingResponse "15.1.0" "ent" false.

Definition find_config : webclient_Config := mkWebclientConfig "example.com" false 30 "".

(** The config a successful upgrade of [host_15_0] to 15.1.0 writes. *)
Definition upgraded : UpdateConfig := config "example.com" true "15.1.0" "15.0.0".


(** The runs of the scenarios, event by event: the upgrade of
    [host_15_0] and of [host_15_0_backup_14_3], the first install on a
    host with no file, and the upgrade of [host_15_0] stopped by a failed
    [Link], a failed [Reload], a [Reload] that is not supported, and a
    failed write. *)
Definition upgrade_trace : list Event :=
  [EvFind find_config (inr ping_15_1);
   EvInstall "15.1.0" cdnURITemplate 1%Z None;
   EvLink "15.1.0" None;
   EvSync None;
   EvLog LevelInfo "Target version successfully installed.";
   EvReload None;
   EvLog LevelInfo "Backup version set.";
   EvList (inr []);
   EvReplace (ConfigPath updater) (encode upgraded);
   EvLog LevelInfo "Configuration updated."].

Definition upgraded_host : FS :=
  fs_replace (ConfigPath updater) (encode upgraded) host_15_0.

Definition upgrade_with_backup_trace : list Event :=
  [EvFind find_config (inr ping_15_1);
   EvRemove "14.3.0" None;
   EvInstall "15.1.0" cdnURITemplate 1%Z None;
   EvLink "15.1.0" None;
   EvSync None;
   EvLog LevelInfo "Target version successfully installed.";
   EvReload None;
   EvLog LevelInfo "Backup version set.";
   EvList (inr []);
   EvReplace (ConfigPath updater) (encode upgraded);
   EvLog LevelInfo "Configuration updated."].

Definition first_installed : UpdateConfig := config "example.com" true "15.1.0" "".

Definition first_install_trace : list Event :=
  [EvFind find_config (inr ping_15_1);
   EvInstall "15.1.0" cdnURITemplate 1%Z None;
   EvLink "15.1.0" None;
   EvSync None;
   EvLog LevelInfo "Target version successfully installed.";
   EvReload None;
   EvList (inr []);
   EvReplace (ConfigPath updater) (encode first_installed);
   EvLog LevelInfo "Configuration updated."].

Definition failed_link_trace : list Event :=
  [EvFind find_config (inr ping_15_1);
   EvInstall "15.1.0" cdnURITemplate 1%Z None;
   EvLink "15.1.0" (Some (errors_New "link exists"))].

Definition failed_restart_trace : list Event :=
  [EvFind find_config (inr ping_15_1);
   EvInstall "15.1.0" cdnURITemplate 1%Z None;
   EvLink "15.1.0" None;
   EvSync None;
   EvLog LevelInfo "Target version successfully installed.";
   EvReload (Some (errors_New "unit failed to start"));
   EvLog LevelError "Reverting symlinks due to failed restart.";
   EvRevert true;
   EvSync None;
   EvReload (Some (errors_New "unit failed again"));
   EvLog LevelError "Failed to revert Teleport to older version. Installation likely broken.";
   EvLog LevelWarn
     "Teleport updater encountered a configuration error and successfully reverted the installation."].

Definition reload_not_supported_trace : list Event :=
  [EvFind find_config (inr ping_15_1);
   EvInstall "15.1.0" cdnURITemplate 1%Z None;
   EvLink "15.1.0" None;
   EvSync None;
   EvLog LevelInfo "Target version successfully installed.";
   EvReload (Some (Errorfw "reload: %w" [] ErrNotSupported));
   EvLog LevelError "Reverting symlinks due to failed restart.";
   EvRevert false;
   EvLog LevelError
     "Failed to revert Teleport symlinks to older version. Installation likely broken.";
   EvLog LevelWarn
     "Teleport updater encountered a configuration error and successfully reverted the installation."].

Definition failed_write_trace : list Event :=
  [EvFind find_config (inr ping_15_1);
   EvInstall "15.1.0" cdnURITemplate 1%Z None;
   EvLink "15.1.0" None;
   EvSync None;
   EvLog LevelInfo "Target version successfully installed.";
   EvReload None;
   EvLog LevelInfo "Backup version set.";
   EvList (inr ["15.0.0"; "15.1.0"])].

(** Overrides naming a group and a mirror, and the spec they give when
    merged into the spec of [host_15_0]. *)
Definition staging_override : OverrideConfig :=
  mkOverrideConfig "" "staging" "HTTPS://mirror.example.com/teleport-{{.Version}}.tgz" "".

Definition staging_spec : UpdateSpec :=
  mkUpdateSpec "example.com" "staging"
    "HTTPS://mirror.example.com/teleport-{{.Version}}.tgz" true.

Definition plain_http_override : OverrideConfig :=
  mkOverrideConfig "" "" "http://mirror.example.com/teleport.tgz" "".

End Scripted.

(** * Properties *)

Section Properties.

Variable W : Type.
Variable env : Platform W.
Variable u : Updater W.

(** ** Inversion of the monad's operations *)

Lemma bind_inv A B (m : M W A) (k : A -> M W B) s res s' t :
  bind W m k s = (res, s', t) ->
  (exists a s1 t1 t2,
      m s = (Ok a, s1, t1) /\ k a s1 = (res, s', t2) /\ t = (t1 ++ t2)%list) \/
  (exists e, m s = (Err e, s', t) /\ res = Err e).
Proof.
  unfold bind. destruct (m s) as [[[a|e] s1] t1].
  - destruct (k a s1) as [[r s2] t2] eqn:K. intros H; injection H as <- <- <-.
    left. exists a, s1, t1, t2. auto.
  - intros H; injection H as <- <- <-. right. eauto.
Qed.

Lemma or_return_inv A wrap (m : M W A) s res s' t :
  or_return W wrap m s = (res, s', t) ->
  (exists a, m s = (Ok a, s', t) /\ res = Ok a) \/
  (exists e, m s = (Err e, s', t) /\ res = Err (wrap e)).
Proof.
  unfold or_return.
  destruct (m s) as [[[a|e] s1] t1]; intros H; injection H as <- <- <-; eauto.
Qed.

Lemma call_inv R (op : W -> R * W) ev s res s' t :
  call W op ev s = (res, s', t) ->
  exists r, res = Ok r /\ st_fs s' = st_fs s /\ t = [ev r] /\
            op (st_world s) = (r, st_world s').
Proof.
  unfold call. destruct (op (st_world s)) as [r w'].
  intros H; injection H as <- <- <-. eauto.
Qed.

Lemma sys_inv R (op : W -> R * W) s res s' t :
  sys W op s = (res, s', t) ->
  exists r, res = Ok r /\ st_fs s' = st_fs s /\ t = [] /\
            op (st_world s) = (r, st_world s').
Proof.
  unfold sys. destruct (op (st_world s)) as [r w'].
  intros H; injection H as <- <- <-. eauto.
Qed.

Ltac use_eq H :=
  first [ discriminate H
        | progress (inversion H; clear H; subst)
        | progress subst
        | clear H ].

(** Symbolic execution of a hypothesis [H : m s = (r, s', t)], one
    statement at a time.  An operation that is none of the monad's own
    is left as a hypothesis. *)
Ltac exec H :=
  cbv beta in H;
  lazymatch type of H with
  | bind _ _ _ _ = _ =>
      let a := fresh "a" in let s1 := fresh "s" in let e := fresh "e" in
      let t1 := fresh "t" in let t2 := fresh "t" in
      let H1 := fresh "H" in let H2 := fresh "H" in let Ht := fresh "Ht" in
      apply bind_inv in H;
      destruct H as [(a & s1 & t1 & t2 & H1 & H2 & Ht) | (e & H1 & H2)];
      [ use_eq Ht; exec H1; exec H2
      | use_eq H2; exec H1 ]
  | or_return _ _ _ _ = _ =>
      let a := fresh "a" in let e := fresh "e" in
      let H1 := fresh "H" in let H2 := fresh "H" in
      apply or_return_inv in H;
      destruct H as [(a & H1 & H2) | (e & H1 & H2)];
      use_eq H2; exec H1
  | call _ _ _ _ = _ =>
      let r := fresh "r" in let Hr := fresh "H" in let Hfs := fresh "Hfs" in
      let Ht := fresh "Ht" in let Hop := fresh "Hop" in
      apply call_inv in H; destruct H as (r & Hr & Hfs & Ht & Hop);
      use_eq Hr
  | sys _ _ _ = _ =>
      let r := fresh "r" in let Hr := fresh "H" in let Hfs := fresh "Hfs" in
      let Ht := fresh "Ht" in let Hop := fresh "Hop" in
      apply sys_inv in H; destruct H as (r & Hr & Hfs & Ht & Hop);
      use_eq Hr
  | ret _ _ _ = _ => unfold ret in H; exec H
  | fail _ _ _ = _ => unfold fail in H; exec H
  | log _ _ _ _ = _ => unfold log, emit in H; exec H
  | emit _ _ _ = _ => unfold emit in H; exec H
  | os_Open _ _ _ = _ => unfold os_Open in H; exec H
  | rename_into _ _ _ _ = _ => unfold rename_into in H; exec H
  | (_, _, _) = (_, _, _) => use_eq H
  | (let (_, _) := ?x in _) _ = _ =>
      let E := fresh "E" in destruct x eqn:E; exec H
  | (match ?x with _ => _ end) _ = _ =>
      let E := fresh "E" in destruct x eqn:E; exec H
  | _ => idtac
  end.

(** Comparisons of strings and booleans, turned into propositions. *)
Ltac bools :=
  rewrite ?negb_true_iff, ?negb_false_iff, ?orb_true_iff, ?orb_false_iff,
    ?andb_true_iff, ?andb_false_iff, ?String.eqb_eq, ?String.eqb_neq in *.

(** ** The config store *)

Lemma readConfig_inv path s r s1 t :
  readConfig env path s = (r, s1, t) -> s1 = s /\ t = [].
Proof.
  intros H. unfold readConfig in H. exec H; auto.
Qed.

(** A config that was read carries the expected tags. *)
Lemma readConfig_tags path s cfg s1 t :
  readConfig env path s = (Ok cfg, s1, t) ->
  Version cfg = updateConfigVersion /\ Kind cfg = updateConfigKind.
Proof.
  intros H. unfold readConfig in H. exec H; bools; auto.
Qed.

(** Reading back a document that was written, given that decoding undoes
    encoding. *)
Lemma readConfig_written path doc content (s : State W) :
  (forall d c, yaml_Encode env d = inr c -> yaml_Decode env c = inr d) ->
  yaml_Encode env doc = inr content ->
  st_fs s path = inr content ->
  Version doc = updateConfigVersion ->
  Kind doc = updateConfigKind ->
  readConfig env path s = (Ok doc, s, []).
Proof.
  intros Hrt Henc Hfile Hv Hk.
  unfold readConfig, bind, os_Open. rewrite Hfile, (Hrt _ _ Henc), Hk, Hv.
  reflexivity.
Qed.

(** [writeConfig] either fails and leaves the file system as it was, or
    replaces the one file by the encoded document. *)
Lemma writeConfig_inv path cfg s r s1 t :
  writeConfig env path cfg s = (r, s1, t) ->
  (exists e, r = Err e /\ st_fs s1 = st_fs s /\ t = []) \/
  (exists content,
      yaml_Encode env cfg = inr content /\ r = Ok tt /\
      st_fs s1 = fs_replace path content (st_fs s) /\
      t = [EvReplace path content]).
Proof.
  intros H. unfold writeConfig in H. exec H; simpl.
  all: try (left; eexists; repeat split; congruence).
  right. eexists. rewrite Hfs0, Hfs. auto.
Qed.

(** ** The blocks of [Enable], one at a time

    For every block: it leaves the file system alone and makes calls of
    its own kinds only; and what it returns with which calls. *)

Ltac only_tac :=
  let ev := fresh "ev" in let Hin := fresh "Hin" in
  intros ev Hin; simpl in Hin;
  repeat (destruct Hin as [<- | Hin]; [simpl; tauto|]);
  contradiction.

Ltac frame_tac := split; [congruence | only_tac].

Lemma lookup_target_version_frame cfg addr override s r s1 t :
  lookup_target_version W env u cfg addr override s = (r, s1, t) ->
  st_fs s1 = st_fs s /\ only [KFind] t.
Proof.
  intros H. unfold lookup_target_version in H. exec H; frame_tac.
Qed.

Lemma lookup_target_version_inv cfg addr override s r s1 t :
  lookup_target_version W env u cfg addr override s = (r, s1, t) ->
  (ForceVersion override <> "" /\ r = Ok (ForceVersion override, 0%Z) /\ t = []) \/
  (ForceVersion override = "" /\
   exists res,
     t = [EvFind (mkWebclientConfig addr (InsecureSkipVerify u) 30 (Group (Spec cfg))) res] /\
     match res with
     | inl err => r = Err (Errorfw "failed to request version from proxy: %w" [] err)
     | inr resp =>
         (AutoUpdate_AgentVersion resp = "" /\
          r = Err (Errorf "agent version not available from Teleport cluster" [])) \/
         (AutoUpdate_AgentVersion resp <> "" /\
          r = Ok (AutoUpdate_AgentVersion resp,
                  Z.lor (if String.eqb (Edition resp) "ent" then FlagEnterprise else 0%Z)
                        (if FIPS resp then FlagFIPS else 0%Z)))
     end).
Proof.
  intros H. unfold lookup_target_version in H. exec H; simpl in *; bools.
  - right. split; [assumption|]. eexists. split; [reflexivity|]. simpl. auto.
  - right. split; [assumption|]. eexists. split; [reflexivity|]. simpl.
    right. split; [assumption|].
    destruct (FIPS p), (String.eqb (Edition p) "ent"); reflexivity.
  - congruence.
  - left. auto.
  - right. split; [assumption|]. eexists. split; [reflexivity|]. reflexivity.
Qed.

Lemma remove_backup_frame cfg desired s r s1 t :
  remove_backup W u cfg desired s = (r, s1, t) ->
  st_fs s1 = st_fs s /\ only [KRemove; KLog] t.
Proof.
  intros H. unfold remove_backup in H. exec H; frame_tac.
Qed.

(** [remove_backup] never fails; it calls [Remove] on the backup version
    exactly under the four conditions, and a failure of [Remove] adds a
    warning. *)
Lemma remove_backup_inv cfg desired s r s1 t :
  remove_backup W u cfg desired s = (r, s1, t) ->
  r = Ok tt /\
  (((BackupVersion (Status cfg) = "" \/
     BackupVersion (Status cfg) = desired \/
     BackupVersion (Status cfg) = ActiveVersion (Status cfg) \/
     desired = ActiveVersion (Status cfg)) /\ t = []) \/
   (BackupVersion (Status cfg) <> "" /\
    BackupVersion (Status cfg) <> desired /\
    BackupVersion (Status cfg) <> ActiveVersion (Status cfg) /\
    desired <> ActiveVersion (Status cfg) /\
    (t = [EvRemove (BackupVersion (Status cfg)) None] \/
     exists e,
       t = [EvRemove (BackupVersion (Status cfg)) (Some e);
            EvLog LevelWarn "Failed to remove backup version of Teleport before new install."]))).
Proof.
  intros H. unfold remove_backup in H. exec H; simpl; bools. all: split; [reflexivity|].
  - left. split; [tauto | reflexivity].
  - left. split; [tauto | reflexivity].
  - right. intuition eauto.
  - right. intuition eauto.
Qed.

Lemma install_desired_version_frame cfg desired flags s r s1 t :
  install_desired_version W u cfg desired flags s = (r, s1, t) ->
  st_fs s1 = st_fs s /\ only [KInstall; KLink] t.
Proof.
  intros H. unfold install_desired_version in H. exec H; frame_tac.
Qed.

Lemma install_desired_version_inv cfg desired flags s r s1 t :
  install_desired_version W u cfg desired flags s = (r, s1, t) ->
  exists template,
    template = (if String.eqb (URLTemplate (Spec cfg)) ""
                then cdnURITemplate else URLTemplate (Spec cfg)) /\
    ((exists e, r = Err (Errorfw "failed to install: %w" [] e) /\
                t = [EvInstall desired template flags (Some e)]) \/
     (exists e, r = Err (Errorfw "failed to link: %w" [] e) /\
                t = [EvInstall desired template flags None; EvLink desired (Some e)]) \/
     (exists revert, r = Ok revert /\
                t = [EvInstall desired template flags None; EvLink desired None])).
Proof.
  intros H. unfold install_desired_version in H.
  eexists. split; [reflexivity|]. exec H; simpl; eauto 6.
Qed.

Lemma sync_after_linking_frame desired revert s r s1 t :
  sync_after_linking W u desired revert s = (r, s1, t) ->
  st_fs s1 = st_fs s /\ only [KSync; KRevert; KLog] t.
Proof.
  intros H. unfold sync_after_linking in H. exec H; frame_tac.
Qed.

(** The four ways out of [sync_after_linking], by the calls made on
    [Process] and the revert closure. *)
Lemma sync_after_linking_inv desired revert s r s1 t :
  sync_after_linking W u desired revert s = (r, s1, t) ->
  (r = Ok tt /\ t = [EvSync None]) \/
  (exists e, errors_Is e context_Canceled = true /\
             r = Err (Errorf "sync canceled" []) /\ t = [EvSync (Some e)]) \/
  (exists e, errors_Is e context_Canceled = false /\
             r = Err (Errorfw "failed to validate configuration for new version %q of Teleport: %w"
                        [desired] e) /\
             (process_calls t = [EvSync (Some e); EvRevert false] \/
              exists again, process_calls t = [EvSync (Some e); EvRevert true; EvSync again])).
Proof.
  intros H. unfold sync_after_linking in H. exec H; simpl.
  all: try (left; split; reflexivity).
  all: try (right; left; eexists; repeat split; eauto; fail).
  all: right; right; eexists; split; [eassumption|]; split; [reflexivity|].
  all: destruct r0; simpl in *; try discriminate; eauto.
Qed.

Lemma restart_if_necessary_frame cfg desired revert s r s1 t :
  restart_if_necessary W u cfg desired revert s = (r, s1, t) ->
  st_fs s1 = st_fs s /\ only [KReload; KRevert; KSync; KLog] t.
Proof.
  intros H. unfold restart_if_necessary in H. exec H; frame_tac.
Qed.

(** The ways out of [restart_if_necessary]: nothing to do; [Reload]
    returned nil or [ErrNotNeeded], and the status is shifted; [Reload]
    was canceled; [Reload] failed, and the compensation ran. *)
Lemma restart_if_necessary_inv cfg desired revert s r s1 t :
  restart_if_necessary W u cfg desired revert s = (r, s1, t) ->
  (ActiveVersion (Status cfg) = desired /\ r = Ok cfg /\ process_calls t = []) \/
  (ActiveVersion (Status cfg) <> desired /\
   ((exists res,
        (res = None \/ exists e, res = Some e /\ errors_Is e ErrNotNeeded = true) /\
        r = Ok (set_Status (mkUpdateStatus desired (ActiveVersion (Status cfg))) cfg) /\
        process_calls t = [EvReload res]) \/
    (exists e,
        errors_Is e ErrNotNeeded = false /\ errors_Is e context_Canceled = true /\
        r = Err (Errorf "reload canceled" []) /\
        process_calls t = [EvReload (Some e)]) \/
    (exists e,
        errors_Is e ErrNotNeeded = false /\ errors_Is e context_Canceled = false /\
        r = Err (Errorfw "failed to start new version %q of Teleport: %w" [desired] e) /\
        (process_calls t = [EvReload (Some e); EvRevert false] \/
         (exists e2, process_calls t = [EvReload (Some e); EvRevert true; EvSync (Some e2)]) \/
         (exists again,
             process_calls t = [EvReload (Some e); EvRevert true; EvSync None; EvReload again]))))).
Proof.
  intros H. unfold restart_if_necessary in H. exec H; simpl; bools.
  all: try (left; repeat split; congruence).
  all: right; (split; [assumption|]).
  all: try (left; eexists; split; [|split; reflexivity];
            first [ left; reflexivity
                  | right; eexists; split; [reflexivity|assumption] ]).
  all: try (right; left; eexists; repeat split; eauto; fail).
  all: right; right; eexists; (split; [|split; [|split; [reflexivity|]]]);
    [assumption | assumption | ].
  all: subst; simpl; eauto.
Qed.

Lemma check_cleanup_frame cfg s r s1 t :
  check_cleanup W u cfg s = (r, s1, t) ->
  st_fs s1 = st_fs s /\ only [KList; KLog] t.
Proof.
  intros H. unfold check_cleanup in H. exec H; frame_tac.
Qed.

(** [check_cleanup] calls [List] once; it fails exactly when [List]
    does, and warns exactly when more than two versions are listed. *)
Lemma check_cleanup_inv cfg s r s1 t :
  check_cleanup W u cfg s = (r, s1, t) ->
  exists res,
    installer_calls t = [EvList res] /\
    match res with
    | inl e => r = Err (Errorfw "failed to list installed versions: %w" [] e)
    | inr versions =>
        r = Ok tt /\
        (In (EvLog LevelWarn
               "More than 2 versions of Teleport installed. Version directory may need cleanup to save space.")
            t <-> 2 < length versions)
    end.
Proof.
  intros H. unfold check_cleanup in H. exec H; simpl; eexists; (split; [reflexivity|]); simpl.
  all: try reflexivity.
  all: split; [reflexivity|].
  all: repeat match goal with
       | H : (_ <? _)%nat = true |- _ => apply Nat.ltb_lt in H
       | H : (_ <? _)%nat = false |- _ => apply Nat.ltb_ge in H
       end.
  all: split; intros Hx;
    [ first [ assumption | simpl in Hx; intuition discriminate ]
    | first [ lia | simpl; auto 10 ] ].
Qed.

(** ** Traces of given kinds *)

Lemma only_filter_nil (p : Event -> bool) ks t :
  only ks t -> (forall ev, In (kind_of ev) ks -> p ev = false) -> filter p t = [].
Proof.
  intros Ho Hp. induction t as [|ev t IH]; [reflexivity|]. simpl.
  rewrite (Hp ev) by (apply Ho; left; reflexivity).
  apply IH. intros ev' Hin. apply Ho. right. exact Hin.
Qed.

Lemma process_calls_In ev t :
  In ev (process_calls t) <-> In ev t /\ is_process_call ev = true.
Proof.
  apply filter_In.
Qed.

Lemma installer_calls_In ev t :
  In ev (installer_calls t) <-> In ev t /\ is_installer_call ev = true.
Proof.
  apply filter_In.
Qed.

(** A block that returns without an error has made no aborting call. *)
Lemma lookup_target_version_ok cfg addr override s a s1 t :
  lookup_target_version W env u cfg addr override s = (Ok a, s1, t) ->
  forall ev, In ev t -> aborting ev = false.
Proof.
  intros H. unfold lookup_target_version in H. exec H.
  all: intros ev Hin; simpl in Hin; intuition (subst; reflexivity).
Qed.

Lemma remove_backup_total cfg desired s r s1 t :
  remove_backup W u cfg desired s = (r, s1, t) -> r = Ok tt.
Proof.
  intros H. apply remove_backup_inv in H. tauto.
Qed.

Lemma remove_backup_ok cfg desired s r s1 t :
  remove_backup W u cfg desired s = (r, s1, t) ->
  forall ev, In ev t -> aborting ev = false.
Proof.
  intros H. unfold remove_backup in H. exec H.
  all: intros ev Hin; simpl in Hin; intuition (subst; reflexivity).
Qed.

Lemma install_desired_version_ok cfg desired flags s a s1 t :
  install_desired_version W u cfg desired flags s = (Ok a, s1, t) ->
  forall ev, In ev t -> aborting ev = false.
Proof.
  intros H. unfold install_desired_version in H. exec H.
  all: intros ev Hin; simpl in Hin; intuition (subst; reflexivity).
Qed.

Lemma sync_after_linking_ok desired revert s a s1 t :
  sync_after_linking W u desired revert s = (Ok a, s1, t) ->
  forall ev, In ev t -> aborting ev = false.
Proof.
  intros H. unfold sync_after_linking in H. exec H.
  all: intros ev Hin; simpl in Hin; intuition (subst; reflexivity).
Qed.

Lemma restart_if_necessary_ok cfg desired revert s a s1 t :
  restart_if_necessary W u cfg desired revert s = (Ok a, s1, t) ->
  forall ev, In ev t -> aborting ev = false.
Proof.
  intros H. unfold restart_if_necessary in H. exec H.
  all: intros ev Hin; simpl in Hin; intuition (subst; simpl; bools; auto).
Qed.

Lemma check_cleanup_ok cfg s a s1 t :
  check_cleanup W u cfg s = (Ok a, s1, t) ->
  forall ev, In ev t -> aborting ev = false.
Proof.
  intros H. unfold check_cleanup in H. exec H.
  all: intros ev Hin; simpl in Hin; intuition (subst; reflexivity).
Qed.

(** ** Walking through [Enable]

    [walk H] takes [H : run (Enable env u override) fs w = (res, s', tr)]
    apart into one goal for each place where [Enable] returns, with one
    hypothesis for each block that ran; [frames] adds what every block
    leaves untouched. *)
Ltac frames :=
  repeat match goal with
  | H : lookup_target_version _ _ _ _ _ _ _ = (_, _, ?t) |- _ =>
      lazymatch goal with _ : only _ t |- _ => fail | _ => idtac end;
      let Hf := fresh "Hfs" in let Ho := fresh "Ho" in
      destruct (lookup_target_version_frame _ _ _ _ _ _ _ H) as [Hf Ho]
  | H : remove_backup _ _ _ _ _ = (_, _, ?t) |- _ =>
      lazymatch goal with _ : only _ t |- _ => fail | _ => idtac end;
      let Hf := fresh "Hfs" in let Ho := fresh "Ho" in
      destruct (remove_backup_frame _ _ _ _ _ _ H) as [Hf Ho]
  | H : install_desired_version _ _ _ _ _ _ = (_, _, ?t) |- _ =>
      lazymatch goal with _ : only _ t |- _ => fail | _ => idtac end;
      let Hf := fresh "Hfs" in let Ho := fresh "Ho" in
      destruct (install_desired_version_frame _ _ _ _ _ _ _ H) as [Hf Ho]
  | H : sync_after_linking _ _ _ _ _ = (_, _, ?t) |- _ =>
      lazymatch goal with _ : only _ t |- _ => fail | _ => idtac end;
      let Hf := fresh "Hfs" in let Ho := fresh "Ho" in
      destruct (sync_after_linking_frame _ _ _ _ _ _ H) as [Hf Ho]
  | H : restart_if_necessary _ _ _ _ _ _ = (_, _, ?t) |- _ =>
      lazymatch goal with _ : only _ t |- _ => fail | _ => idtac end;
      let Hf := fresh "Hfs" in let Ho := fresh "Ho" in
      destruct (restart_if_necessary_frame _ _ _ _ _ _ _ H) as [Hf Ho]
  | H : check_cleanup _ _ _ _ = (_, _, ?t) |- _ =>
      lazymatch goal with _ : only _ t |- _ => fail | _ => idtac end;
      let Hf := fresh "Hfs" in let Ho := fresh "Ho" in
      destruct (check_cleanup_frame _ _ _ _ _ H) as [Hf Ho]
  end.

Ltac walk H :=
  unfold run, Enable in H; exec H;
  repeat match goal with
  | H : remove_backup _ _ _ _ _ = (Err _, _, _) |- _ =>
      apply remove_backup_total in H; discriminate
  | H : readConfig _ _ ?s = (_, ?s1, ?t) |- _ =>
      lazymatch s1 with s => fail | _ => idtac end;
      let H1 := fresh in let H2 := fresh in
      destruct (readConfig_inv _ _ _ _ _ H) as [H1 H2]; subst s1 t
  end;
  try match goal with
  | H : writeConfig _ _ _ _ = _ |- _ =>
      let Hr := fresh "Hr" in let Hfs := fresh "Hfs" in let Ht := fresh "Ht" in
      let Henc := fresh "Henc" in
      apply writeConfig_inv in H;
      destruct H as [(? & Hr & Hfs & Ht) | (? & Henc & Hr & Hfs & Ht)];
      use_eq Hr; subst
  end;
  frames; simpl app.

(** Membership in a trace put together from the traces of the blocks:
    [split_in] goes through the blocks, [by_kind] closes the case of a
    block that makes no call of the event's kind. *)
Ltac by_kind Hin :=
  lazymatch type of Hin with
  | In _ ?t =>
      try solve [ match goal with
                  | Ho : only _ t |- _ =>
                      let K := fresh "K" in
                      pose proof (Ho _ Hin) as K; simpl in K; exfalso; clear - K;
                      intuition discriminate
                  end
                | simpl in Hin; intuition discriminate ]
  | False => contradiction
  | _ => idtac
  end.

Ltac split_in Hin :=
  simpl in Hin;
  repeat match type of Hin with
  | _ \/ _ =>
      destruct Hin as [Hin | Hin];
      [ first [ solve [inversion Hin] | inversion Hin; clear Hin; subst ] |]
  | In _ (_ ++ _) =>
      apply in_app_or in Hin; destruct Hin as [Hin | Hin]; [by_kind Hin|]
  | In _ (_ :: _) => apply in_inv in Hin
  end;
  try by_kind Hin.

Ltac fs_chain := cbn [st_fs st_world] in *; congruence.

(** The calls picked by [p] from a trace put together from the traces of
    the blocks: a block that makes no such call adds nothing. *)
Ltac pick_calls p Hpc :=
  unfold installer_calls, process_calls in Hpc;
  simpl in Hpc; rewrite ?filter_app in Hpc;
  repeat match goal with
  | Ho : only ?ks ?t |- _ =>
      match type of Hpc with
      | context [filter p t] =>
          rewrite (only_filter_nil p ks t Ho) in Hpc
            by (intros [] ?; simpl in *; intuition discriminate)
      end
  end;
  simpl in Hpc; rewrite ?app_nil_r in Hpc;
  repeat match type of Hpc with
  | context [filter is_process_call ?t] =>
      change (filter is_process_call t) with (process_calls t) in Hpc
  | context [filter is_installer_call ?t] =>
      change (filter is_installer_call t) with (installer_calls t) in Hpc
  end.

(** Opening a block: the ways it can have ended. *)
Ltac open_lookup :=
  match goal with
  | H : lookup_target_version _ _ _ _ _ _ _ = _ |- _ =>
      let Hf := fresh "Hforce" in let Hr := fresh "Hr" in
      apply lookup_target_version_inv in H;
      destruct H as [(Hf & Hr & ->) | (Hf & ? & -> & Hr)]
  end.

Ltac open_remove :=
  match goal with
  | H : remove_backup _ _ _ _ _ = _ |- _ =>
      let Hc := fresh "Hcond" in
      apply remove_backup_inv in H;
      destruct H as [_ [(Hc & ->) | (? & ? & ? & ? & [-> | (? & ->)])]]
  end.

Ltac open_install :=
  match goal with
  | H : install_desired_version _ _ _ _ _ _ = _ |- _ =>
      let Hr := fresh "Hr" in
      apply install_desired_version_inv in H;
      destruct H as (? & ? & [(? & Hr & ->) | [(? & Hr & ->) | (? & Hr & ->)]]);
      use_eq Hr
  end.

Ltac open_sync :=
  match goal with
  | H : sync_after_linking _ _ _ _ _ = _ |- _ =>
      let Hr := fresh "Hr" in let Ht := fresh "Hsync" in
      apply sync_after_linking_inv in H;
      destruct H as [(Hr & Ht) | [(? & ? & Hr & Ht) | (? & ? & Hr & Ht)]];
      use_eq Hr
  end.

Ltac open_restart :=
  match goal with
  | H : restart_if_necessary _ _ _ _ _ _ = _ |- _ =>
      let Hr := fresh "Hr" in let Ht := fresh "Hrestart" in
      let Hv := fresh "Hversion" in
      apply restart_if_necessary_inv in H;
      destruct H as [(Hv & Hr & Ht)
                    | (Hv & [(? & ? & Hr & Ht)
                            | [(? & ? & ? & Hr & Ht) | (? & ? & ? & Hr & Ht)]])];
      use_eq Hr
  end.

Ltac open_cleanup :=
  match goal with
  | H : check_cleanup _ _ _ _ = _ |- _ =>
      let Hr := fresh "Hr" in let Ht := fresh "Hlist" in
      apply check_cleanup_inv in H;
      destruct H as ([? | ?] & Ht & Hr); [|destruct Hr as [Hr ?]];
      use_eq Hr
  end.

(** The first of the calls picked from a block's trace is in the trace,
    and [in_trace] finds an event in a trace put together from blocks. *)
Ltac note_calls :=
  repeat match goal with
  | Hc : process_calls ?t = ?ev :: _ |- _ =>
      lazymatch goal with
      | _ : In ev t |- _ => fail
      | _ => assert (In ev t)
               by (apply (proj1 (process_calls_In ev t)); rewrite Hc; left; reflexivity)
      end
  | Hc : installer_calls ?t = ?ev :: _ |- _ =>
      lazymatch goal with
      | _ : In ev t |- _ => fail
      | _ => assert (In ev t)
               by (apply (proj1 (installer_calls_In ev t)); rewrite Hc; left; reflexivity)
      end
  end.

Ltac in_trace := repeat first [ rewrite in_app_iff | progress cbn [In] ]; tauto.

(** An event of a process call, found in a block whose process calls
    are known. *)
Ltac in_process_calls Hin :=
  match type of Hin with
  | In ?ev ?t =>
      apply (fun H => proj2 (process_calls_In ev t) (conj H eq_refl)) in Hin;
      match goal with
      | Hc : process_calls t = _ |- _ => rewrite Hc in Hin; simpl in Hin
      end
  end.

(** The config a run of [Enable] read is the one config there is to
    read. *)
Ltac same_config Hload :=
  match goal with
  | H : readConfig _ _ _ = _ |- _ =>
      lazymatch H with
      | Hload => fail
      | _ => rewrite H in Hload; first [ discriminate Hload
                                       | inversion Hload; subst; clear Hload ]
      end
  end.

(** ** Failure leaves the configuration alone *)

(** C1.  A run of [Enable] that returns an error leaves the file system,
    and so the config file, exactly as it was, and has replaced no file.
    A run that did replace a file replaced the config file, returned
    nil, and made no aborting call before: every step it took had
    succeeded. *)
Theorem Enable_error_leaves_config override fs w res s' tr :
  run (Enable env u override) fs w = (res, s', tr) ->
  (forall e, res = Err e ->
     st_fs s' = fs /\ forall path content, ~ In (EvReplace path content) tr) /\
  (forall path content, In (EvReplace path content) tr ->
     res = Ok tt /\ path = ConfigPath u /\
     st_fs s' = fs_replace (ConfigPath u) content fs /\
     forall ev, In ev tr -> aborting ev = false).
Proof.
  intros H. walk H.
  all: split;
    [ intros e' He';
      first [ discriminate He'
            | split; [ fs_chain | intros path content ? ] ]
    | intros path content ? ].
  all: match goal with Hin : In _ _ |- _ => split_in Hin end.
  repeat split; [fs_chain|].
  intros ev Hev.
  repeat (apply in_app_or in Hev; destruct Hev as [Hev|Hev]);
    eauto using lookup_target_version_ok, remove_backup_ok, install_desired_version_ok,
      sync_after_linking_ok, restart_if_necessary_ok, check_cleanup_ok.
  simpl in Hev. intuition (subst; reflexivity).
Qed.

(** ** Reload, and the shift of the status *)

(** C2.  In a run of [Enable] that linked the desired version and whose
    [Sync] succeeded: [Reload] is called if and only if the loaded active
    version differs from the desired one.  When it differs and [Reload]
    returns nil or [ErrNotNeeded], nothing is reverted, [Enable] goes on
    to list the versions, and a run that returns nil has persisted a
    document whose active version is the desired one and whose backup
    version is the loaded active version.  When the versions are equal no
    call follows the [Sync], and a run that returns nil has persisted the
    status as loaded. *)
Theorem Enable_reload_iff_version_changed
    override fs w cfg s0 t0 res s' tr desired tail :
  readConfig env (ConfigPath u) (mkState fs w) = (Ok cfg, s0, t0) ->
  run (Enable env u override) fs w = (res, s', tr) ->
  In (EvLink desired None) tr ->
  process_calls tr = EvSync None :: tail ->
  ((exists r, In (EvReload r) tr) <-> ActiveVersion (Status cfg) <> desired) /\
  (ActiveVersion (Status cfg) <> desired ->
     exists r tail', tail = EvReload r :: tail' /\
       ((r = None \/ exists e, r = Some e /\ errors_Is e ErrNotNeeded = true) ->
          tail' = [] /\
          (exists listed, In (EvList listed) tr) /\
          (res = Ok tt ->
             exists doc content,
               yaml_Encode env doc = inr content /\
               st_fs s' = fs_replace (ConfigPath u) content fs /\
               ActiveVersion (Status doc) = desired /\
               BackupVersion (Status doc) = ActiveVersion (Status cfg)))) /\
  (ActiveVersion (Status cfg) = desired ->
     tail = [] /\
     (res = Ok tt ->
        exists doc content,
          yaml_Encode env doc = inr content /\
          st_fs s' = fs_replace (ConfigPath u) content fs /\
          Status doc = Status cfg)).
Proof.
  intros Hload H Hlink Hpc. walk H; try same_config Hload.
  all: pick_calls is_process_call Hpc; try discriminate Hpc.
  all: open_sync; try (simpl in *; discriminate Hpc).
  all: try (destruct Hsync as [Hsync | [? Hsync]]; rewrite Hsync in Hpc; discriminate Hpc).
  all: open_install.
  all: split_in Hlink.
  all: simpl in Hpc; injection Hpc as Hpc.
  all: open_restart; try open_cleanup.
  all: try (destruct Hrestart as [Hrestart | [(? & Hrestart) | (? & Hrestart)]]).
  all: note_calls; simpl in *.
  all: split; [split; [intros [r Hin] | intros Hne] | split; [intros Hne | intros Heq]].
  all: try congruence.
  (* a Reload in the trace, though the versions are equal *)
  all: try (exfalso; split_in Hin; in_process_calls Hin; contradiction).
  (* the Reload that was called *)
  all: try (match goal with Hx : In (EvReload ?r) _ |- _ => exists r; in_trace end).
  (* versions equal: nothing after Sync, the status is persisted as loaded *)
  all: try (split; [assumption|]; intros Hok;
            first [ discriminate Hok
                  | eexists; eexists; split; [eassumption|];
                    split; [fs_chain | reflexivity] ]).
  (* versions differ *)
  all: eexists; eexists; (split; [eassumption|]).
  all: intros Hnn.
  all: try (destruct Hnn as [Hnn | (? & Hnn & ?)];
            [discriminate Hnn | injection Hnn as <-; congruence]).
  all: split; [reflexivity|]; split.
  all: try (match goal with Hx : In (EvList ?r) _ |- _ => exists r; in_trace end).
  all: intros Hok; try discriminate Hok.
  eexists; eexists; split; [eassumption|]; split; [fs_chain | split; reflexivity].
Qed.

(** ** A failed Sync *)

(** C3.  In a run of [Enable] whose first call on the process is a [Sync]
    that fails with [e] (so [Link] had succeeded): if [e] is a
    cancellation, [Enable] returns "sync canceled" and calls nothing
    more, the revert closure included; otherwise the revert closure is
    called next, [Sync] is called once more exactly when the closure
    returned true, and whatever that second [Sync] returns [Enable]
    returns the error that names the linked version and wraps [e]. *)
Theorem Enable_sync_failure override fs w res s' tr e rest :
  run (Enable env u override) fs w = (res, s', tr) ->
  process_calls tr = EvSync (Some e) :: rest ->
  (errors_Is e context_Canceled = true ->
     res = Err (Errorf "sync canceled" []) /\ rest = []) /\
  (errors_Is e context_Canceled = false ->
     (rest = [EvRevert false] \/ exists again, rest = [EvRevert true; EvSync again]) /\
     exists desired,
       In (EvLink desired None) tr /\
       res = Err (Errorfw "failed to validate configuration for new version %q of Teleport: %w"
                    [desired] e)).
Proof.
  intros H Hpc. walk H.
  all: pick_calls is_process_call Hpc; try discriminate Hpc.
  all: open_sync; try (simpl in Hpc; discriminate Hpc).
  all: try (destruct Hsync as [Hsync | [? Hsync]]); try rewrite Hsync in Hpc.
  all: simpl in Hpc; injection Hpc as <- <-.
  all: open_install.
  all: split; intros Hc; try congruence.
  - split; reflexivity.
  - split; [left; reflexivity|]. eexists. split; [in_trace | reflexivity].
  - split; [right; eexists; reflexivity|]. eexists. split; [in_trace | reflexivity].
Qed.

(** ** The stale backup *)

(** C4.  In a run of [Enable] that read [cfg]: if [Install] was called
    for [desired], then [Remove] was called if and only if the loaded
    backup version is non-empty and differs from [desired] and from the
    loaded active version, and [desired] differs from the active version.
    Every [Remove] is of the loaded backup version, and is followed by
    the call of [Install], whether it failed or not; a failure adds a
    warning to the log and nothing else. *)
Theorem Enable_removes_stale_backup override fs w cfg s0 t0 res s' tr :
  readConfig env (ConfigPath u) (mkState fs w) = (Ok cfg, s0, t0) ->
  run (Enable env u override) fs w = (res, s', tr) ->
  (forall desired template flags r,
     In (EvInstall desired template flags r) tr ->
     ((exists v err, In (EvRemove v err) tr) <->
      BackupVersion (Status cfg) <> "" /\
      BackupVersion (Status cfg) <> desired /\
      BackupVersion (Status cfg) <> ActiveVersion (Status cfg) /\
      desired <> ActiveVersion (Status cfg))) /\
  (forall v err,
     In (EvRemove v err) tr ->
     v = BackupVersion (Status cfg) /\
     (exists desired template flags r calls,
        installer_calls tr =
          EvRemove v err :: EvInstall desired template flags r :: calls) /\
     (err <> None ->
      In (EvLog LevelWarn "Failed to remove backup version of Teleport before new install.")
         tr)).
Proof.
  intros Hload H. walk H; try same_config Hload.
  all: try open_install; try open_remove.
  all: split; [intros desired template flags r Hin | intros v err Hin].
  all: split_in Hin.
  (* Install was called: Remove was called exactly under the conditions *)
  all: try (split; [intros (v & err & Hrm); split_in Hrm; simpl in *; tauto
                   | intros Hc; simpl in *;
                     first [ exfalso; intuition congruence
                           | eexists; eexists; in_trace ] ]).
  (* Remove was called: of the backup version, and Install follows *)
  all: (split; [reflexivity|]; split; [|intros Hnone; first [congruence | in_trace]]).
  all: match goal with
       | |- exists _ _ _ _ _, installer_calls ?t = _ =>
           remember (installer_calls t) as ic eqn:Hic; symmetry in Hic;
           pick_calls is_installer_call Hic; subst ic
       end.
  all: repeat eexists.
Qed.

(** ** The target version *)

Lemma flags_of_response (ent fips : bool) :
  let f := Z.lor (if ent then FlagEnterprise else 0%Z) (if fips then FlagFIPS else 0%Z) in
  (Z.land f FlagEnterprise = FlagEnterprise <-> ent = true) /\
  (Z.land f FlagFIPS = FlagFIPS <-> fips = true).
Proof.
  destruct ent, fips; simpl; split; split; intros; try reflexivity; try discriminate.
Qed.

(** C5.  With a forced version no discovery request is made, and every
    [Install] is of the forced version with no flag set; once the
    config, the merged spec and the proxy address are good, [Install] is
    indeed called so.  Without a forced version every [Install] is of
    the version a discovery response gave, with [FlagEnterprise] set
    exactly when the response's edition is "ent" and [FlagFIPS] exactly
    when its FIPS field is true; once the config, the merged spec and the
    proxy address are good, the request is indeed made, and a response
    with a version makes [Enable] call [Install] of that version, with
    [FlagEnterprise] for the edition "ent", [FlagFIPS] for FIPS, and no
    other flag.  A response with an empty version makes [Enable] return
    an error with no call on the installer at all. *)
Theorem Enable_target_version override fs w res s' tr :
  run (Enable env u override) fs w = (res, s', tr) ->
  (ForceVersion override <> "" ->
     (forall c r, ~ In (EvFind c r) tr) /\
     (forall v t f r, In (EvInstall v t f r) tr ->
        v = ForceVersion override /\ f = 0%Z)) /\
  (ForceVersion override = "" ->
     forall v t f r, In (EvInstall v t f r) tr ->
       exists c resp,
         In (EvFind c (inr resp)) tr /\
         v = AutoUpdate_AgentVersion resp /\
         (Z.land f FlagEnterprise = FlagEnterprise <-> Edition resp = "ent") /\
         (Z.land f FlagFIPS = FlagFIPS <-> FIPS resp = true)) /\
  (forall c resp,
     In (EvFind c (inr resp)) tr -> AutoUpdate_AgentVersion resp = "" ->
     res = Err (Errorf "agent version not available from Teleport cluster" []) /\
     installer_calls tr = []) /\
  (forall cfg s0 t0 spec addr,
     readConfig env (ConfigPath u) (mkState fs w) = (Ok cfg, s0, t0) ->
     validateConfigSpec (Spec cfg) override = (spec, None) ->
     libutils_ParseAddr env (Proxy spec) = inr addr ->
     (ForceVersion override <> "" ->
        exists t r, In (EvInstall (ForceVersion override) t 0%Z r) tr) /\
     (ForceVersion override = "" ->
        exists r,
          In (EvFind (mkWebclientConfig addr (InsecureSkipVerify u) 30 (Group spec)) r) tr)) /\
  (forall c resp,
     In (EvFind c (inr resp)) tr -> AutoUpdate_AgentVersion resp <> "" ->
     exists t r,
       In (EvInstall (AutoUpdate_AgentVersion resp) t
             (Z.lor (if String.eqb (Edition resp) "ent" then FlagEnterprise else 0%Z)
                    (if FIPS resp then FlagFIPS else 0%Z)) r) tr).
Proof.
  intros H. walk H.
  all: try open_lookup; try open_install.
  all: repeat match goal with
       | Hr : match ?res with inl _ => _ | inr _ => _ end |- _ =>
           destruct res; [|destruct Hr as [[? Hr] | [? Hr]]]
       end.
  all: repeat match goal with Hr : _ = _ :> result _ |- _ => use_eq Hr end.
  all: split; [|split; [|split; [|split]]].
  (* a response with a version: that version is installed, with its flags *)
  all: try (intros c resp Hin Hne; split_in Hin;
            first [ congruence | eexists; eexists; in_trace ]; fail).
  (* a forced version *)
  all: try (intros Hf;
            first [ congruence
                  | split;
                    [ intros c r Hin; split_in Hin
                    | intros v t f r Hin; split_in Hin; auto ] ]; fail).
  (* a discovered version *)
  all: try (intros Hf v t f r Hin; split_in Hin;
            first [ congruence
                  | eexists; eexists; (split; [in_trace|]); (split; [reflexivity|]);
                    rewrite <- String.eqb_eq; apply flags_of_response ]; fail).
  (* an empty version *)
  all: try (intros c resp Hin Hempty; split_in Hin;
            first [ congruence | split; reflexivity ]; fail).
  (* the calls are made *)
  all: intros ? ? ? ? ? Hload Hval Hparse; try same_config Hload.
  all: match goal with
       | E : validateConfigSpec ?a ?b = (_, _), E' : validateConfigSpec ?a ?b = (_, _) |- _ =>
           rewrite E in E'; first [ discriminate E' | inversion E'; subst; clear E' ]
       end.
  all: simpl in *.
  all: match goal with
       | E : libutils_ParseAddr _ ?a = _, E' : libutils_ParseAddr _ ?a = _ |- _ =>
           rewrite E in E'; first [ discriminate E' | inversion E'; subst; clear E' ]
       end.
  all: split; intros Hf; try congruence.
  all: eexists; try eexists; in_trace.
Qed.

(** ** Listing the installed versions *)

(** C7, amended.  Counting the installed versions never fails [Enable]:
    when [List] returns the versions, however many, [Enable] goes on to
    write the config, with a warning when there are more than two, and
    returns nil or the error of the write.  But an error from [List]
    makes [Enable] return that error, wrapped, and the config is not
    written. *)
Theorem Enable_list_error_aborts override fs w res s' tr :
  run (Enable env u override) fs w = (res, s', tr) ->
  (forall e, In (EvList (inl e)) tr ->
     res = Err (Errorfw "failed to list installed versions: %w" [] e) /\
     st_fs s' = fs /\
     forall path content, ~ In (EvReplace path content) tr) /\
  (forall versions, In (EvList (inr versions)) tr ->
     (2 < length versions ->
      In (EvLog LevelWarn
            "More than 2 versions of Teleport installed. Version directory may need cleanup to save space.")
         tr) /\
     ((res = Ok tt /\ exists content, In (EvReplace (ConfigPath u) content) tr) \/
      (exists e, res = Err (Errorfw "failed to write %s: %w" [updateConfigName] e)))).
Proof.
  intros H. walk H.
  all: split; [intros e' Hin | intros versions Hin].
  all: split_in Hin.
  all: open_cleanup.
  all: match goal with
       | Hl : installer_calls ?t = _, Hi : In ?ev ?t |- _ =>
           apply (fun H => proj2 (installer_calls_In ev t) (conj H eq_refl)) in Hi;
           rewrite Hl in Hi; simpl in Hi; destruct Hi as [Hi | []];
           first [ discriminate Hi | inversion Hi; subst; clear Hi ]
       end.
  (* List failed *)
  all: try (split; [reflexivity|]; split; [fs_chain|];
            intros path content Hrp; split_in Hrp; fail).
  (* List returned the versions *)
  all: split.
  all: try (right; eexists; reflexivity).
  all: try (left; split; [reflexivity|]; eexists; in_trace).
  all: match goal with Hw : _ <-> 2 < length _ |- _ => rewrite <- Hw end.
  all: intros Hlog; in_trace.
Qed.

(** ** [ErrNotSupported] *)

(** An error that is [ErrNotSupported] is neither a cancellation nor
    [ErrNotNeeded]. *)
Lemma errors_Is_ErrNotSupported e :
  errors_Is e ErrNotSupported = true ->
  errors_Is e context_Canceled = false /\ errors_Is e ErrNotNeeded = false.
Proof.
  induction e; simpl; intros H; try discriminate H; auto.
Qed.

(** C8, amended.  [Enable] gives [ErrNotSupported] no treatment of its
    own: it is a failure like any other that is not a cancellation.  When
    the [Sync] after [Link] returns it, the revert closure is called and
    [Enable] returns the error that names the version it had linked and
    wraps the error of [Sync]; when the [Reload] after a successful
    [Sync] returns it, the same, with the error of [Reload]; in both
    cases the config is not written. *)
Theorem Enable_not_supported_is_a_failure override fs w res s' tr e :
  run (Enable env u override) fs w = (res, s', tr) ->
  errors_Is e ErrNotSupported = true ->
  (forall rest, process_calls tr = EvSync (Some e) :: rest ->
     (exists ok rest', rest = EvRevert ok :: rest') /\
     (exists desired,
        In (EvLink desired None) tr /\
        res = Err (Errorfw "failed to validate configuration for new version %q of Teleport: %w"
                     [desired] e)) /\
     st_fs s' = fs /\
     (forall path content, ~ In (EvReplace path content) tr)) /\
  (forall rest, process_calls tr = EvSync None :: EvReload (Some e) :: rest ->
     (exists ok rest', rest = EvRevert ok :: rest') /\
     (exists desired,
        In (EvLink desired None) tr /\
        res = Err (Errorfw "failed to start new version %q of Teleport: %w" [desired] e)) /\
     st_fs s' = fs /\
     (forall path content, ~ In (EvReplace path content) tr)).
Proof.
  intros H Hns. destruct (errors_Is_ErrNotSupported e Hns) as [Hnc Hnn].
  walk H.
  all: split; intros rest Hpc.
  all: pick_calls is_process_call Hpc; try discriminate Hpc.
  all: open_install.
  all: open_sync; try (simpl in Hpc; discriminate Hpc).
  all: try (destruct Hsync as [Hsync | [? Hsync]]); try rewrite Hsync in Hpc.
  all: simpl in Hpc; try discriminate Hpc.
  all: try (injection Hpc as <- <-;
            first [ congruence
                  | split; [eauto|];
                    split; [eexists; split; [|reflexivity]; in_trace|];
                    split; [fs_chain | intros ? ? Hx; split_in Hx] ]).
  all: open_restart.
  all: try (destruct Hrestart as [Hrestart | [(? & Hrestart) | (? & Hrestart)]]).
  all: rewrite Hrestart in Hpc; simpl in Hpc; try discriminate Hpc.
  all: inversion Hpc; subst; clear Hpc.
  all: try (exfalso;
            match goal with
            | Hx : _ \/ _ |- _ =>
                destruct Hx as [Hx | (? & Hx & ?)];
                [ discriminate Hx | injection Hx as <-; congruence ]
            end).
  all: try congruence.
  all: split; [eauto|];
    split; [eexists; split; [|reflexivity]; in_trace|];
    split; [fs_chain | intros ? ? Hx; split_in Hx].
Qed.

(** ** Idempotence *)

(** What a run of [Enable] that returns nil has read, resolved and
    written. *)
Lemma Enable_ok_inv override fs w s' tr :
  run (Enable env u override) fs w = (Ok tt, s', tr) ->
  exists cfg spec desired content,
    readConfig env (ConfigPath u) (mkState fs w) = (Ok cfg, mkState fs w, []) /\
    validateConfigSpec (Spec cfg) override = (spec, None) /\
    (ForceVersion override <> "" -> desired = ForceVersion override) /\
    (ForceVersion override = "" ->
       exists c resp,
         In (EvFind c (inr resp)) tr /\ desired = AutoUpdate_AgentVersion resp) /\
    yaml_Encode env
      (set_Enabled true
         (if String.eqb (ActiveVersion (Status cfg)) desired
          then set_Spec spec cfg
          else set_Status (mkUpdateStatus desired (ActiveVersion (Status cfg)))
                 (set_Spec spec cfg))) = inr content /\
    st_fs s' = fs_replace (ConfigPath u) content fs.
Proof.
  intros H. walk H.
  open_lookup;
    repeat match goal with
    | Hr : match ?res with inl _ => _ | inr _ => _ end |- _ =>
        destruct res; [|destruct Hr as [[? Hr] | [? Hr]]]
    end;
    repeat match goal with Hr : _ = _ :> result _ |- _ => use_eq Hr end.
  all: open_restart; simpl in *.
  all: match goal with
       | Hv : ActiveVersion _ = _ |- _ => apply String.eqb_eq in Hv
       | Hv : ActiveVersion _ <> _ |- _ => apply String.eqb_neq in Hv
       end.
  all: match goal with
       | Hrm : remove_backup _ _ (set_Spec ?sp ?c) ?d _ = _ |- _ => exists c, sp, d
       end; eexists; (split; [eassumption|]); (split; [eassumption|]).
  all: split; [intros Hf; first [reflexivity | congruence] |].
  all: split; [intros Hf; first [congruence | eexists; eexists; split; [in_trace | reflexivity]] |].
  all: match goal with Hv : String.eqb _ _ = _ |- _ => rewrite Hv end.
  all: split; [eassumption | fs_chain].
Qed.

(** Merging the same overrides into a spec that has them already changes
    nothing. *)
Lemma validateConfigSpec_again spec0 override spec b :
  validateConfigSpec spec0 override = (spec, None) ->
  validateConfigSpec (mkUpdateSpec (Proxy spec) (Group spec) (URLTemplate spec) b) override =
    (mkUpdateSpec (Proxy spec) (Group spec) (URLTemplate spec) b, None).
Proof.
  unfold validateConfigSpec. intros H.
  destruct (String.eqb (override_Proxy override) "") eqn:Ep;
    destruct (String.eqb (override_Group override) "") eqn:Eg;
    destruct (String.eqb (override_URLTemplate override) "") eqn:Et;
    simpl in *.
  all: repeat match type of H with
       | (if ?c then _ else _) = _ => destruct c eqn:?; try discriminate H
       end.
  all: inversion H; subst; clear H; simpl.
  all: repeat match goal with
       | E : ?c = _ |- context [?c] => rewrite E
       end.
  all: reflexivity.
Qed.

(** C6.  Two runs of [Enable] in a row with the same overrides, both
    returning nil, the second starting where the first ended, leave the
    same file system, and so the same config document; given that the
    proxy advertises the same version to both and that decoding undoes
    encoding. *)
Theorem Enable_idempotent override fs w s1 tr1 s2 tr2 :
  (forall d c, yaml_Encode env d = inr c -> yaml_Decode env c = inr d) ->
  run (Enable env u override) fs w = (Ok tt, s1, tr1) ->
  run (Enable env u override) (st_fs s1) (st_world s1) = (Ok tt, s2, tr2) ->
  (forall c1 r1 c2 r2,
     In (EvFind c1 (inr r1)) tr1 -> In (EvFind c2 (inr r2)) tr2 ->
     AutoUpdate_AgentVersion r1 = AutoUpdate_AgentVersion r2) ->
  forall path, st_fs s2 path = st_fs s1 path.
Proof.
  intros Hrt H1 H2 Hsame path.
  destruct (Enable_ok_inv _ _ _ _ _ H1)
    as (cfg1 & spec1 & d1 & c1 & Hload1 & Hval1 & Hf1 & Hd1 & Henc1 & Hfs1).
  destruct (Enable_ok_inv _ _ _ _ _ H2)
    as (cfg2 & spec2 & d2 & c2 & Hload2 & Hval2 & Hf2 & Hd2 & Henc2 & Hfs2).
  (* both runs resolve the same version *)
  assert (Hd : d2 = d1).
  { destruct (String.eqb (ForceVersion override) "") eqn:Ef; bools.
    - destruct (Hd1 Ef) as (? & r1 & Hin1 & ->).
      destruct (Hd2 Ef) as (? & r2 & Hin2 & ->).
      symmetry. eapply Hsame; eassumption.
    - rewrite (Hf1 Ef), (Hf2 Ef). reflexivity. }
  subst d2.
  (* the second run reads the document the first wrote *)
  destruct (readConfig_tags _ _ _ _ _ Hload1) as [Hv Hk].
  set (doc1 := set_Enabled true
                 (if String.eqb (ActiveVersion (Status cfg1)) d1
                  then set_Spec spec1 cfg1
                  else set_Status (mkUpdateStatus d1 (ActiveVersion (Status cfg1)))
                         (set_Spec spec1 cfg1))) in *.
  assert (Hfile : st_fs s1 (ConfigPath u) = inr c1).
  { rewrite Hfs1. unfold fs_replace. rewrite String.eqb_refl. reflexivity. }
  assert (Hcfg2 : cfg2 = doc1).
  { assert (Hr : readConfig env (ConfigPath u) (mkState (st_fs s1) (st_world s1)) =
                 (Ok doc1, mkState (st_fs s1) (st_world s1), [])).
    { apply (readConfig_written _ _ c1); auto.
      - unfold doc1. destruct (String.eqb _ _); exact Hv.
      - unfold doc1. destruct (String.eqb _ _); exact Hk. }
    rewrite Hr in Hload2. congruence. }
  subst cfg2.
  assert (Hspec : Spec doc1 = mkUpdateSpec (Proxy spec1) (Group spec1) (URLTemplate spec1) true).
  { unfold doc1. destruct (String.eqb _ _); reflexivity. }
  assert (Hactive : String.eqb (ActiveVersion (Status doc1)) d1 = true).
  { unfold doc1. destruct (String.eqb (ActiveVersion (Status cfg1)) d1) eqn:Ea; simpl.
    - exact Ea.
    - apply String.eqb_refl. }
  rewrite Hspec, (validateConfigSpec_again _ _ _ true Hval1) in Hval2.
  injection Hval2 as <-.
  rewrite Hactive in Henc2.
  assert (Hdoc : set_Enabled true
                   (set_Spec (mkUpdateSpec (Proxy spec1) (Group spec1) (URLTemplate spec1) true)
                      doc1) = doc1).
  { unfold doc1. destruct (String.eqb _ _); reflexivity. }
  rewrite Hdoc, Henc1 in Henc2. injection Henc2 as <-.
  rewrite Hfs2, Hfs1. unfold fs_replace.
  destruct (String.eqb path (ConfigPath u)); reflexivity.
Qed.

(** ** The proxy address is parsed whatever the version comes from *)

(** C10.  With a forced version, once the config is read and the merged
    spec is valid, a proxy address that does not parse makes [Enable]
    return the parse error at once: the file system and the world are as
    they were, and no call was made, though the proxy would never have
    been contacted. *)
Theorem Enable_parses_proxy_with_forced_version
    override fs w cfg s0 t0 spec err :
  ForceVersion override <> "" ->
  readConfig env (ConfigPath u) (mkState fs w) = (Ok cfg, s0, t0) ->
  validateConfigSpec (Spec cfg) override = (spec, None) ->
  libutils_ParseAddr env (Proxy spec) = inl err ->
  run (Enable env u override) fs w =
    (Err (Errorfw "failed to parse proxy server address: %w" [] err), mkState fs w, []).
Proof.
  intros _ Hload Hval Hparse.
  destruct (readConfig_inv _ _ _ _ _ Hload) as [-> ->].
  unfold run, Enable, bind, or_return. rewrite Hload, Hval. simpl.
  rewrite Hparse. reflexivity.
Qed.

(** ** Disable *)

(** C9.  [Disable] calls neither the installer nor the process (its
    trace holds file replacements and log lines only).  If the loaded
    config is already disabled, it returns nil and writes nothing.
    Otherwise, when it returns nil, it has replaced the config file by
    the loaded document with [Enabled] set to false, every other field
    as loaded.  A second [Disable] after a first that returned nil
    returns nil and changes nothing (given that decoding undoes
    encoding). *)
Theorem Disable_is_a_config_write fs w res s' tr :
  run (Disable env u) fs w = (res, s', tr) ->
  only [KReplace; KLog] tr /\
  installer_calls tr = [] /\ process_calls tr = [] /\
  forall cfg s0 t0,
    readConfig env (ConfigPath u) (mkState fs w) = (Ok cfg, s0, t0) ->
    (Enabled (Spec cfg) = false ->
       res = Ok tt /\ s' = mkState fs w /\
       forall path content, ~ In (EvReplace path content) tr) /\
    (Enabled (Spec cfg) = true -> res = Ok tt ->
       exists content,
         yaml_Encode env (set_Enabled false cfg) = inr content /\
         st_fs s' = fs_replace (ConfigPath u) content fs /\
         tr = [EvReplace (ConfigPath u) content] /\
         Enabled (Spec (set_Enabled false cfg)) = false /\
         Proxy (Spec (set_Enabled false cfg)) = Proxy (Spec cfg) /\
         Group (Spec (set_Enabled false cfg)) = Group (Spec cfg) /\
         URLTemplate (Spec (set_Enabled false cfg)) = URLTemplate (Spec cfg) /\
         Status (set_Enabled false cfg) = Status cfg) /\
    (res = Ok tt ->
     (forall d c, yaml_Encode env d = inr c -> yaml_Decode env c = inr d) ->
     exists tr2,
       run (Disable env u) (st_fs s') (st_world s') = (Ok tt, s', tr2) /\
       forall path content, ~ In (EvReplace path content) tr2).
Proof.
  intros H.
  assert (Hk : only [KReplace; KLog] tr).
  { unfold run, Disable in H. exec H;
      repeat match goal with
      | H : readConfig _ _ _ = _ |- _ =>
          apply readConfig_inv in H; destruct H; subst
      | H : writeConfig _ _ _ _ = _ |- _ =>
          apply writeConfig_inv in H;
          destruct H as [(? & ? & ? & ?) | (? & ? & ? & ? & ?)]; subst
      end; only_tac. }
  split; [exact Hk|].
  split; [apply (only_filter_nil _ _ _ Hk); intros [] Hin; simpl in *;
          intuition discriminate|].
  split; [apply (only_filter_nil _ _ _ Hk); intros [] Hin; simpl in *;
          intuition discriminate|].
  intros cfg s0 t0 Hload.
  destruct (readConfig_inv _ _ _ _ _ Hload) as [-> ->].
  destruct (readConfig_tags _ _ _ _ _ Hload) as [Hv Hkind].
  unfold run, Disable, bind, or_return in H. rewrite Hload in H.
  destruct (Enabled (Spec cfg)) eqn:Hen; simpl in H.
  - (* enabled: the config is written *)
    destruct (writeConfig env (ConfigPath u) (set_Enabled false cfg) (mkState fs w))
      as [[rw sw] tw] eqn:Hw.
    apply writeConfig_inv in Hw.
    destruct Hw as [(e & -> & Hfs & ->) | (content & Henc & -> & Hfs & ->)];
      simpl in H; inversion H; subst; clear H.
    + split; [discriminate|]. split; [discriminate|]. discriminate.
    + split; [discriminate|]. split.
      * intros _ _. exists content. simpl in Hfs. repeat split; assumption.
      * intros _ Hrt. simpl in Hfs.
        assert (Hfile : st_fs s' (ConfigPath u) = inr content).
        { rewrite Hfs. unfold fs_replace. rewrite String.eqb_refl. reflexivity. }
        unfold run, Disable, bind, or_return.
        destruct s' as [fs' w']. simpl in *.
        rewrite (readConfig_written (ConfigPath u) (set_Enabled false cfg) content
                   (mkState fs' w') Hrt Henc Hfile Hv Hkind). simpl.
        eexists. split; [reflexivity|].
        intros path c Hin. simpl in Hin. intuition discriminate.
  - (* already disabled *)
    inversion H; subst; clear H.
    split.
    + intros _. repeat split. intros path c Hin. simpl in Hin. intuition discriminate.
    + split; [discriminate|].
      intros _ _. unfold run, Disable, bind, or_return. simpl.
      rewrite Hload, Hen. simpl.
      eexists. split; [reflexivity|].
      intros path c Hin. simpl in Hin. intuition discriminate.
Qed.

(** * Further properties

    The config store on its own, [validateConfigSpec], the compensation
    after a failed [Reload], the arguments and the order of the calls,
    and how [Enable] and [Disable] compose. *)

(** ** The config store *)

(** X1.  A document with the expected tags that [writeConfig] has
    written is the document [readConfig] reads from the same path, given
    that decoding undoes encoding. *)
Theorem writeConfig_then_readConfig path cfg s s1 t :
  (forall d c, yaml_Encode env d = inr c -> yaml_Decode env c = inr d) ->
  Version cfg = updateConfigVersion ->
  Kind cfg = updateConfigKind ->
  writeConfig env path cfg s = (Ok tt, s1, t) ->
  readConfig env path s1 = (Ok cfg, s1, []).
Proof.
  intros Hrt Hv Hk Hw.
  apply writeConfig_inv in Hw.
  destruct Hw as [(e & He & _) | (content & Henc & _ & Hfs & _)]; [discriminate He|].
  apply (readConfig_written path cfg content s1 Hrt Henc); auto.
  rewrite Hfs. unfold fs_replace. rewrite String.eqb_refl. reflexivity.
Qed.

(** X2.  [writeConfig] does not look at the tags, [readConfig] does: a
    document written with another kind is refused on reading with
    "invalid kind", whatever its version; with the right kind and
    another version it is refused with "invalid version". *)
Theorem writeConfig_then_readConfig_bad_tags path cfg s s1 t :
  (forall d c, yaml_Encode env d = inr c -> yaml_Decode env c = inr d) ->
  writeConfig env path cfg s = (Ok tt, s1, t) ->
  (Kind cfg <> updateConfigKind ->
   readConfig env path s1 = (Err (Errorf "invalid kind %q" [Kind cfg]), s1, [])) /\
  (Kind cfg = updateConfigKind -> Version cfg <> updateConfigVersion ->
   readConfig env path s1 = (Err (Errorf "invalid version %q" [Version cfg]), s1, [])).
Proof.
  intros Hrt Hw.
  apply writeConfig_inv in Hw.
  destruct Hw as [(e & He & _) | (content & Henc & _ & Hfs & _)]; [discriminate He|].
  assert (Hfile : st_fs s1 path = inr content).
  { rewrite Hfs. unfold fs_replace. rewrite String.eqb_refl. reflexivity. }
  split.
  - intros Hk. apply String.eqb_neq in Hk.
    unfold readConfig, bind, os_Open. rewrite Hfile, (Hrt _ _ Henc), Hk. reflexivity.
  - intros Hk Hv. apply String.eqb_neq in Hv.
    unfold readConfig, bind, os_Open. rewrite Hfile, (Hrt _ _ Henc), Hk, Hv.
    reflexivity.
Qed.


(** X4.  [readConfig] on a path that does not exist gives the empty
    document with the expected tags, so that [Disable] on a host that
    never ran [Enable] returns nil and creates no file. *)
Theorem Disable_without_config fs w err :
  fs (ConfigPath u) = inl err ->
  errors_Is err fs_ErrNotExist = true ->
  run (Disable env u) fs w =
    (Ok tt, mkState fs w, [EvLog LevelInfo "Automatic updates already disabled."]).
Proof.
  intros Hfile Hne.
  unfold run, Disable, or_return, readConfig, os_Open, bind. cbn [st_fs].
  rewrite Hfile, Hne. reflexivity.
Qed.

(** ** [validateConfigSpec] *)

(** A spec that passed has a proxy and, if it has a template, one that
    starts with "https://" in whatever case. *)
Lemma validateConfigSpec_valid spec0 override spec :
  validateConfigSpec spec0 override = (spec, None) ->
  Proxy spec <> "" /\
  (URLTemplate spec = "" \/
   strings_HasPrefix (strings_ToLower (URLTemplate spec)) "https://" = true).
Proof.
  unfold validateConfigSpec.
  match goal with
  | |- (if ?c && ?d then _ else _) = _ -> _ =>
      destruct c eqn:Ec; destruct d eqn:Ed; cbn [andb]
  end; try discriminate.
  all: match goal with
       | |- (if ?c then _ else _) = _ -> _ => destruct c eqn:Ep
       end; try discriminate.
  all: intros H; injection H as <-; bools; auto.
Qed.

(** X5.  What [validateConfigSpec] gives when it returns nil: every
    field of the spec is the override's where the override has one and
    the old one otherwise, [Enabled] is untouched, the proxy is not empty,
    and the template is empty or starts with "https://" in whatever
    case. *)
Theorem validateConfigSpec_merges spec0 override spec :
  validateConfigSpec spec0 override = (spec, None) ->
  Proxy spec = (if String.eqb (override_Proxy override) ""
                then Proxy spec0 else override_Proxy override) /\
  Group spec = (if String.eqb (override_Group override) ""
                then Group spec0 else override_Group override) /\
  URLTemplate spec = (if String.eqb (override_URLTemplate override) ""
                      then URLTemplate spec0 else override_URLTemplate override) /\
  Enabled spec = Enabled spec0 /\
  Proxy spec <> "" /\
  (URLTemplate spec = "" \/
   strings_HasPrefix (strings_ToLower (URLTemplate spec)) "https://" = true).
Proof.
  intros H. destruct (validateConfigSpec_valid _ _ _ H) as [Hp Ht].
  repeat split; try assumption.
  all: revert H; unfold validateConfigSpec;
    destruct (String.eqb (override_Proxy override) "");
    destruct (String.eqb (override_Group override) "");
    destruct (String.eqb (override_URLTemplate override) ""); cbn [negb];
    repeat match goal with
    | |- (if ?c then _ else _) = _ -> _ => destruct c
    end; intros H; try discriminate H; injection H as <-; reflexivity.
Qed.

(** X6.  [validateConfigSpec] refuses a template that is there and does
    not start with "https://" before it looks at the proxy: the error
    is the one about TLS also when the proxy is missing; and the error
    about the proxy means that the template was acceptable. *)
Theorem validateConfigSpec_errors spec0 override spec e :
  validateConfigSpec spec0 override = (spec, Some e) ->
  (e = Errorf "Teleport download URL must use TLS (https://)" [] /\
   URLTemplate spec <> "" /\
   strings_HasPrefix (strings_ToLower (URLTemplate spec)) "https://" = false) \/
  (e = Errorf "Teleport proxy URL must be specified with --proxy or present in %s"
         [updateConfigName] /\
   Proxy spec = "" /\
   (URLTemplate spec = "" \/
    strings_HasPrefix (strings_ToLower (URLTemplate spec)) "https://" = true)).
Proof.
  unfold validateConfigSpec.
  match goal with
  | |- (if ?c && ?d then _ else _) = _ -> _ =>
      destruct c eqn:Ec; destruct d eqn:Ed; cbn [andb]
  end.
  all: try match goal with
       | |- (if ?c then _ else _) = _ -> _ => destruct c eqn:Ep
       end.
  all: intros H; try discriminate H; injection H as <- <-; bools; auto.
Qed.

(** X7.  Merging the same overrides a second time changes nothing: a
    spec that [validateConfigSpec] returned is returned again as it
    is. *)
Theorem validateConfigSpec_idempotent spec0 override spec :
  validateConfigSpec spec0 override = (spec, None) ->
  validateConfigSpec spec override = (spec, None).
Proof.
  intros H. pose proof (validateConfigSpec_again _ _ _ (Enabled spec) H) as H2.
  destruct spec; exact H2.
Qed.

(** ** What a run of [Enable] that returns nil has done *)

Ltac goal_calls p :=
  match goal with
  | |- context [process_calls ?t] =>
      let pc := fresh "pc" in let Hpc := fresh "Hpc" in
      remember (process_calls t) as pc eqn:Hpc; symmetry in Hpc;
      pick_calls p Hpc; pick_calls p Hpc; subst pc
  end.

Lemma Enable_ok_shape override fs w s' tr :
  run (Enable env u override) fs w = (Ok tt, s', tr) ->
  exists cfg spec desired content,
    readConfig env (ConfigPath u) (mkState fs w) = (Ok cfg, mkState fs w, []) /\
    validateConfigSpec (Spec cfg) override = (spec, None) /\
    desired <> "" /\
    yaml_Encode env
      (set_Enabled true
         (if String.eqb (ActiveVersion (Status cfg)) desired
          then set_Spec spec cfg
          else set_Status (mkUpdateStatus desired (ActiveVersion (Status cfg)))
                 (set_Spec spec cfg))) = inr content /\
    st_fs s' = fs_replace (ConfigPath u) content fs /\
    In (EvLink desired None) tr /\
    (forall d r, In (EvLink d r) tr -> d = desired /\ r = None) /\
    ((process_calls tr = [EvSync None] /\ ActiveVersion (Status cfg) = desired) \/
     (exists r, process_calls tr = [EvSync None; EvReload r] /\
                ActiveVersion (Status cfg) <> desired)) /\
    (forall v r, In (EvRemove v r) tr -> v = BackupVersion (Status cfg) /\ v <> "").
Proof.
  intros H. walk H.
  assert (Hd : forall d f s1 t1,
             lookup_target_version W env u (set_Spec u0 a0) s0 override
               (mkState fs w) = (Ok (d, f), s1, t1) -> d <> "").
  { intros d f s1' t1' Hl. apply lookup_target_version_inv in Hl.
    destruct Hl as [(Hf & Hr & _) | (_ & res & _ & Hr)].
    - injection Hr as -> _. exact Hf.
    - destruct res as [?|resp]; [discriminate Hr|].
      destruct Hr as [[_ Hr] | [Hne Hr]]; [discriminate Hr|].
      injection Hr as -> _. exact Hne. }
  match goal with
  | Hl : lookup_target_version _ _ _ _ _ _ _ = _ |- _ => specialize (Hd _ _ _ _ Hl)
  end.
  open_install. open_sync. open_restart; simpl in *.
  all: match goal with
       | Hrm : remove_backup _ _ (set_Spec ?sp ?c) ?d _ = _ |- _ => exists c, sp, d
       end; eexists.
  all: split; [eassumption|]; split; [eassumption|]; split; [assumption|].
  all: first [ rewrite String.eqb_refl
             | match goal with
               | Hv : ActiveVersion _ <> _ |- _ => rewrite (proj2 (String.eqb_neq _ _) Hv)
               end ].
  all: split; [eassumption|]; split; [fs_chain|]; split; [in_trace|].
  all: split; [intros d r Hin; split_in Hin; auto|].
  all: split; [|intros v r Hin; open_remove; split_in Hin; simpl in *; auto].
  all: goal_calls is_process_call.
  all: match goal with Hc : process_calls _ = _ |- _ => rewrite Hc end.
  - left. auto.
  - right. eexists. simpl. auto.
Qed.

(** X8.  A run of [Enable] that returns nil has written a document that
    [readConfig] accepts: it carries the expected tags, [Enabled] is
    true, the proxy is not empty, and the template is empty or starts
    with "https://" in whatever case.  Given that decoding undoes
    encoding, [readConfig] reads this document back. *)
Theorem Enable_persists_valid_config override fs w s' tr :
  run (Enable env u override) fs w = (Ok tt, s', tr) ->
  exists doc content,
    yaml_Encode env doc = inr content /\
    st_fs s' (ConfigPath u) = inr content /\
    Version doc = updateConfigVersion /\
    Kind doc = updateConfigKind /\
    Enabled (Spec doc) = true /\
    Proxy (Spec doc) <> "" /\
    (URLTemplate (Spec doc) = "" \/
     strings_HasPrefix (strings_ToLower (URLTemplate (Spec doc))) "https://" = true) /\
    ((forall d c, yaml_Encode env d = inr c -> yaml_Decode env c = inr d) ->
     readConfig env (ConfigPath u) s' = (Ok doc, s', [])).
Proof.
  intros H.
  destruct (Enable_ok_shape _ _ _ _ _ H)
    as (cfg & spec & desired & content & Hload & Hval & _ & Henc & Hfs & _).
  destruct (readConfig_tags _ _ _ _ _ Hload) as [Hv Hk].
  destruct (validateConfigSpec_valid _ _ _ Hval) as [Hp Ht].
  assert (Hfile : st_fs s' (ConfigPath u) = inr content).
  { rewrite Hfs. unfold fs_replace. rewrite String.eqb_refl. reflexivity. }
  eexists. exists content. split; [exact Henc|]. split; [exact Hfile|].
  destruct (String.eqb (ActiveVersion (Status cfg)) desired); simpl.
  all: repeat (split; [assumption || reflexivity|]).
  all: intros Hrt; apply (readConfig_written _ _ content _ Hrt Henc Hfile); assumption.
Qed.

(** X9.  In a run of [Enable] that returns nil, the active version
    written is not empty, it is the one version that was linked, the link
    succeeded, and the revert closure was never called. *)
Theorem Enable_persists_linked_version override fs w s' tr :
  run (Enable env u override) fs w = (Ok tt, s', tr) ->
  exists doc content,
    yaml_Encode env doc = inr content /\
    st_fs s' (ConfigPath u) = inr content /\
    ActiveVersion (Status doc) <> "" /\
    In (EvLink (ActiveVersion (Status doc)) None) tr /\
    (forall d r, In (EvLink d r) tr -> d = ActiveVersion (Status doc) /\ r = None) /\
    (forall ok, ~ In (EvRevert ok) tr).
Proof.
  intros H.
  destruct (Enable_ok_shape _ _ _ _ _ H)
    as (cfg & spec & desired & content & _ & _ & Hne & Henc & Hfs & Hlink & Honly & Hpc & _).
  assert (Hfile : st_fs s' (ConfigPath u) = inr content).
  { rewrite Hfs. unfold fs_replace. rewrite String.eqb_refl. reflexivity. }
  assert (Hrev : forall ok, ~ In (EvRevert ok) tr).
  { intros ok Hin.
    apply (fun H => proj2 (process_calls_In (EvRevert ok) tr) (conj H eq_refl)) in Hin.
    destruct Hpc as [[Hpc _] | (r & Hpc & _)]; rewrite Hpc in Hin; simpl in Hin;
      intuition discriminate. }
  eexists. exists content. split; [exact Henc|]. split; [exact Hfile|].
  destruct (String.eqb (ActiveVersion (Status cfg)) desired) eqn:Ea; simpl.
  - apply String.eqb_eq in Ea. rewrite Ea. auto.
  - auto.
Qed.

(** X10.  In a run of [Enable] that returns nil the backup version
    written differs from the active version written whenever [Reload]
    was called, and otherwise whenever the two differed in the config
    that was read. *)
Theorem Enable_keeps_backup_distinct override fs w cfg s0 t0 s' tr :
  readConfig env (ConfigPath u) (mkState fs w) = (Ok cfg, s0, t0) ->
  run (Enable env u override) fs w = (Ok tt, s', tr) ->
  exists doc content,
    yaml_Encode env doc = inr content /\
    st_fs s' (ConfigPath u) = inr content /\
    ((exists r, In (EvReload r) tr) ->
     BackupVersion (Status doc) <> ActiveVersion (Status doc)) /\
    (BackupVersion (Status cfg) <> ActiveVersion (Status cfg) ->
     BackupVersion (Status doc) <> ActiveVersion (Status doc)).
Proof.
  intros Hload H.
  destruct (Enable_ok_shape _ _ _ _ _ H)
    as (cfg' & spec & desired & content & Hload' & _ & _ & Henc & Hfs & _ & _ & Hpc & _).
  rewrite Hload' in Hload. injection Hload as -> _ _.
  assert (Hfile : st_fs s' (ConfigPath u) = inr content).
  { rewrite Hfs. unfold fs_replace. rewrite String.eqb_refl. reflexivity. }
  eexists. exists content. split; [exact Henc|]. split; [exact Hfile|].
  destruct (String.eqb (ActiveVersion (Status cfg)) desired) eqn:Ea; simpl.
  - apply String.eqb_eq in Ea. split; [|auto].
    intros (r & Hin).
    apply (fun H => proj2 (process_calls_In (EvReload r) tr) (conj H eq_refl)) in Hin.
    destruct Hpc as [[Hpc _] | (r' & _ & Hne)]; [|contradiction].
    rewrite Hpc in Hin. simpl in Hin. intuition discriminate.
  - apply String.eqb_neq in Ea. split; intros _; exact Ea.
Qed.

(** ** A failed Reload *)

(** X11.  In a run of [Enable] whose [Sync] succeeded and whose [Reload]
    failed with [e], not [ErrNotNeeded]: if [e] is a cancellation,
    [Enable] returns "reload canceled" and calls nothing more, the
    revert closure included; otherwise the revert closure is called
    next, [Sync] is called again exactly when the closure returned true,
    [Reload] is called again exactly when that [Sync] returned nil, and
    whatever these return [Enable] returns the error that names the
    linked version and wraps [e].  In both cases the installed versions
    are not listed. *)
Theorem Enable_reload_failure override fs w res s' tr e rest :
  run (Enable env u override) fs w = (res, s', tr) ->
  process_calls tr = EvSync None :: EvReload (Some e) :: rest ->
  errors_Is e ErrNotNeeded = false ->
  (errors_Is e context_Canceled = true ->
     res = Err (Errorf "reload canceled" []) /\ rest = []) /\
  (errors_Is e context_Canceled = false ->
     (rest = [EvRevert false] \/
      (exists e2, rest = [EvRevert true; EvSync (Some e2)]) \/
      (exists again, rest = [EvRevert true; EvSync None; EvReload again])) /\
     exists desired,
       In (EvLink desired None) tr /\
       res = Err (Errorfw "failed to start new version %q of Teleport: %w" [desired] e)) /\
  (forall listed, ~ In (EvList listed) tr).
Proof.
  intros H Hpc Hnn. walk H.
  all: pick_calls is_process_call Hpc; try discriminate Hpc.
  all: open_sync; try (simpl in Hpc; discriminate Hpc).
  all: try (destruct Hsync as [Hsync | [? Hsync]]; rewrite Hsync in Hpc;
            simpl in Hpc; discriminate Hpc).
  all: open_install.
  all: simpl in Hpc; injection Hpc as Hpc.
  all: open_restart.
  all: try (destruct Hrestart as [Hrestart | [(? & Hrestart) | (? & Hrestart)]]).
  all: pick_calls is_process_call Hpc.
  all: rewrite Hrestart in Hpc; simpl in Hpc; try discriminate Hpc.
  all: inversion Hpc; subst; clear Hpc.
  all: try (exfalso;
            match goal with
            | Hx : _ \/ _ |- _ =>
                destruct Hx as [Hx | (? & Hx & ?)];
                [ discriminate Hx | injection Hx as <-; congruence ]
            end).
  all: split; [intros Hc; first [congruence | split; reflexivity] |].
  all: split; [intros Hc; first [ congruence
                                | split; [eauto 6 | eexists; split; [in_trace | reflexivity]] ] |].
  all: intros listed Hin; split_in Hin.
Qed.

(** ** The calls on the installer *)

(** X12.  When [Install] fails in a run of [Enable], [Enable] returns
    the error that wraps [Install]'s, and neither [Link] nor [List] nor
    anything on the process is called.  When [Link] fails, [Enable]
    returns the error that wraps [Link]'s; the version had been
    installed in the call before, and neither [List] nor anything on the
    process nor the revert closure is called. *)
Theorem Enable_install_or_link_failure override fs w res s' tr :
  run (Enable env u override) fs w = (res, s', tr) ->
  (forall v t f e,
     In (EvInstall v t f (Some e)) tr ->
     res = Err (Errorfw "failed to install: %w" [] e) /\
     (forall d r, ~ In (EvLink d r) tr) /\
     (forall listed, ~ In (EvList listed) tr) /\
     process_calls tr = []) /\
  (forall v e,
     In (EvLink v (Some e)) tr ->
     res = Err (Errorfw "failed to link: %w" [] e) /\
     (exists t f, In (EvInstall v t f None) tr) /\
     (forall listed, ~ In (EvList listed) tr) /\
     process_calls tr = []).
Proof.
  intros H. walk H.
  all: try open_install.
  all: split; [intros ? ? ? ? Hin | intros ? ? Hin].
  all: split_in Hin.
  all: split; [reflexivity|].
  all: split; [first [ intros ? ? Hl; split_in Hl
                     | eexists; eexists; in_trace ] |].
  all: split; [intros ? Hl; split_in Hl|].
  all: goal_calls is_process_call; reflexivity.
Qed.

(** X13.  Every [Install] in a run of [Enable] is of a version that is
    not empty, from a template that starts with "https://" in whatever
    case (the merged template, or the CDN default when that is empty),
    with no flag set beyond [FlagEnterprise] and [FlagFIPS]; and no
    other version is linked in the run. *)
Theorem Enable_install_arguments override fs w res s' tr v t f r :
  run (Enable env u override) fs w = (res, s', tr) ->
  In (EvInstall v t f r) tr ->
  v <> "" /\
  strings_HasPrefix (strings_ToLower t) "https://" = true /\
  (exists cfg s0 t0 spec e,
     readConfig env (ConfigPath u) (mkState fs w) = (Ok cfg, s0, t0) /\
     validateConfigSpec (Spec cfg) override = (spec, e) /\
     t = if String.eqb (URLTemplate spec) "" then cdnURITemplate else URLTemplate spec) /\
  Z.land f (Z.lor FlagEnterprise FlagFIPS) = f /\
  (forall d r', In (EvLink d r') tr -> d = v).
Proof.
  intros H Hin. walk H.
  all: try open_install.
  all: split_in Hin.
  all: match goal with
       | Hl : lookup_target_version _ _ _ _ _ _ _ = _ |- _ =>
           apply lookup_target_version_inv in Hl;
           destruct Hl as [(Hf & Hr & _) | (_ & [?|resp] & _ & Hr)];
           [ | discriminate Hr | destruct Hr as [[_ Hr] | [Hne Hr]]; [discriminate Hr|] ];
           injection Hr as -> ->
       end.
  all: match goal with
       | E : validateConfigSpec _ _ = (_, None) |- _ =>
           pose proof (validateConfigSpec_valid _ _ _ E) as [_ Htpl]
       end.
  all: split; [assumption|].
  all: split; [simpl; destruct (String.eqb (URLTemplate _) "") eqn:Et;
               [ reflexivity
               | apply String.eqb_neq in Et; destruct Htpl; [contradiction | assumption] ] |].
  all: split; [do 5 eexists; split; [eassumption|]; split; [eassumption|]; reflexivity|].
  all: split; [ try reflexivity;
                try (destruct (String.eqb (Edition resp) "ent"), (FIPS resp); reflexivity)
              | intros d r' Hl; split_in Hl; reflexivity ].
Qed.

Ltac goal_installer_calls :=
  match goal with
  | |- context [installer_calls ?t] =>
      let ic := fresh "ic" in let Hic := fresh "Hic" in
      remember (installer_calls t) as ic eqn:Hic; symmetry in Hic;
      pick_calls is_installer_call Hic; pick_calls is_installer_call Hic; subst ic
  end.

Ltac choose :=
  first [ solve [repeat eexists; first [reflexivity | discriminate]]
        | left; choose
        | right; choose ].

(** X14.  The calls a run of [Enable] makes on the installer come in one
    order: at most one [Remove], then [Install], then [Link] of the
    version installed if [Install] returned nil, then [List] if [Link]
    returned nil and the run got past [Sync] and [Reload].  Nothing is
    called on the installer after a call that failed, [Remove] apart. *)
Theorem Enable_installer_call_order override fs w res s' tr :
  run (Enable env u override) fs w = (res, s', tr) ->
  exists rm,
    (rm = [] \/ exists v r, rm = [EvRemove v r]) /\
    ((installer_calls tr = [] /\ rm = []) \/
     (exists v t f e, installer_calls tr = rm ++ [EvInstall v t f (Some e)]) \/
     (exists v t f e,
        installer_calls tr = rm ++ [EvInstall v t f None; EvLink v (Some e)]) \/
     (exists v t f,
        installer_calls tr = rm ++ [EvInstall v t f None; EvLink v None] /\
        res <> Ok tt) \/
     (exists v t f listed,
        installer_calls tr =
          rm ++ [EvInstall v t f None; EvLink v None; EvList listed]))%list.
Proof.
  intros H. walk H.
  all: try open_remove; try open_install; try open_cleanup.
  all: goal_installer_calls.
  all: repeat match goal with
       | Hl : installer_calls _ = _ |- _ => rewrite Hl; clear Hl
       end.
  all: match goal with
       | Ho : only [KRemove; KLog] ?t |- _ => exists (installer_calls t)
       | _ => exists (@nil Event)
       end.
  all: simpl.
  all: split; [first [left; reflexivity | right; eexists; eexists; reflexivity] |].
  all: choose.
Qed.

(** ** The calls on the process *)

(** The calls a run of [Enable] makes on the process and of the revert
    closure: none, or one of eight sequences, all after a [Link] that
    succeeded. *)
Lemma Enable_process_calls_shape override fs w res s' tr :
  run (Enable env u override) fs w = (res, s', tr) ->
  process_calls tr = [] \/
  ((exists d, In (EvLink d None) tr) /\
   (process_calls tr = [EvSync None] \/
    (exists r, process_calls tr = [EvSync None; EvReload r]) \/
    (exists e, process_calls tr = [EvSync None; EvReload (Some e); EvRevert false]) \/
    (exists e e2,
       process_calls tr =
         [EvSync None; EvReload (Some e); EvRevert true; EvSync (Some e2)]) \/
    (exists e again,
       process_calls tr =
         [EvSync None; EvReload (Some e); EvRevert true; EvSync None; EvReload again]) \/
    (exists e, process_calls tr = [EvSync (Some e)]) \/
    (exists e, process_calls tr = [EvSync (Some e); EvRevert false]) \/
    (exists e again, process_calls tr = [EvSync (Some e); EvRevert true; EvSync again]))).
Proof.
  intros H. walk H.
  all: try open_install; try open_sync; try open_restart.
  all: try (destruct Hsync as [Hsync | [? Hsync]]).
  all: try (destruct Hrestart as [Hrestart | [(? & Hrestart) | (? & Hrestart)]]).
  all: goal_calls is_process_call.
  all: repeat match goal with
       | Hc : process_calls _ = _ |- _ => rewrite Hc; clear Hc
       end.
  all: simpl.
  all: try (left; reflexivity).
  all: right; split; [eexists; in_trace | choose].
Qed.

Ltac split_list H :=
  lazymatch type of H with
  | (?pre ++ _ :: _)%list = _ =>
      let a := fresh "ev" in let p := fresh "pre" in
      destruct pre as [|a p]; simpl in H;
      [ try discriminate H
      | first [ discriminate H
              | let H' := fresh "H" in injection H as H' H; subst a; split_list H ] ]
  | _ => idtac
  end.

(** X15.  The calls a run of [Enable] makes on the process come in one
    order.  The first is a [Sync], and a [Link] had succeeded before it.
    Every [Reload] directly follows a [Sync] that returned nil.  The
    revert closure is called at most once, directly after a [Sync] or a
    [Reload] that failed; nothing follows it when it returns false, and a
    [Sync] follows it when it returns true. *)
Theorem Enable_process_call_order override fs w res s' tr :
  run (Enable env u override) fs w = (res, s', tr) ->
  (forall ev rest,
     process_calls tr = ev :: rest ->
     (exists r, ev = EvSync r) /\ exists d, In (EvLink d None) tr) /\
  (forall pre r post,
     process_calls tr = (pre ++ EvReload r :: post)%list ->
     exists pre', pre = (pre' ++ [EvSync None])%list) /\
  (forall pre ok post,
     process_calls tr = (pre ++ EvRevert ok :: post)%list ->
     (exists pre' e, pre = (pre' ++ [EvSync (Some e)])%list \/
                     pre = (pre' ++ [EvReload (Some e)])%list) /\
     (forall ok', ~ In (EvRevert ok') pre /\ ~ In (EvRevert ok') post) /\
     (ok = false -> post = []) /\
     (ok = true -> exists r post', post = EvSync r :: post')).
Proof.
  intros H. apply Enable_process_calls_shape in H.
  destruct H as [Hpc | [Hlink Hpc]].
  { rewrite Hpc. split; [|split].
    - intros ? ? Hx. discriminate Hx.
    - intros pre ? ? Hx. symmetry in Hx. destruct pre; discriminate Hx.
    - intros pre ? ? Hx. symmetry in Hx. destruct pre; discriminate Hx. }
  repeat match goal with
         | Hx : _ \/ _ |- _ => destruct Hx as [Hx | Hx]
         | Hx : exists _, _ |- _ => destruct Hx as [? Hx]
         end.
  all: rewrite Hpc; clear Hpc.
  all: split; [|split].
  all: try (intros ev rest Hx; injection Hx as <- <-; split; [eexists; reflexivity | eauto]).
  all: try (intros pre rr post Hx; symmetry in Hx; split_list Hx;
            first [ discriminate Hx
                  | inversion Hx; subst; clear Hx;
                    first [ exists []; reflexivity
                          | eexists [_]; reflexivity
                          | eexists [_; _]; reflexivity
                          | eexists [_; _; _]; reflexivity ] ]).
  all: intros pre ok post Hx; symmetry in Hx; split_list Hx.
  all: try discriminate Hx.
  all: inversion Hx; subst; clear Hx.
  all: split; [ first [ eexists [], _; left; reflexivity
                      | eexists [], _; right; reflexivity
                      | eexists [_], _; left; reflexivity
                      | eexists [_], _; right; reflexivity ] |].
  all: split; [intros ok'; simpl; split; intuition discriminate|].
  all: split; intros Hok; first [discriminate Hok | reflexivity | eexists; eexists; reflexivity].
Qed.

(** ** Enable and Disable together *)

(** X16.  [Disable] after an [Enable] that returned nil, given that
    decoding undoes encoding: [Disable] reads the document [Enable]
    wrote, never finds updates disabled already, and either fails to
    write and leaves the file as [Enable] wrote it, or replaces it by
    that document with [Enabled] false. *)
Theorem Enable_then_Disable override fs w s1 tr1 res s2 tr2 :
  (forall d c, yaml_Encode env d = inr c -> yaml_Decode env c = inr d) ->
  run (Enable env u override) fs w = (Ok tt, s1, tr1) ->
  run (Disable env u) (st_fs s1) (st_world s1) = (res, s2, tr2) ->
  exists doc content,
    yaml_Encode env doc = inr content /\
    st_fs s1 (ConfigPath u) = inr content /\
    ((exists e,
        res = Err (Errorfw "failed to write %s: %w" [updateConfigName] e) /\
        st_fs s2 = st_fs s1 /\ tr2 = []) \/
     (exists content',
        res = Ok tt /\
        yaml_Encode env (set_Enabled false doc) = inr content' /\
        st_fs s2 = fs_replace (ConfigPath u) content' (st_fs s1) /\
        tr2 = [EvReplace (ConfigPath u) content'])).
Proof.
  intros Hrt H1 H2.
  destruct (Enable_ok_shape _ _ _ _ _ H1)
    as (cfg & spec & desired & content & Hload & _ & _ & Henc & Hfs & _).
  destruct (readConfig_tags _ _ _ _ _ Hload) as [Hv Hk].
  assert (Hfile : st_fs s1 (ConfigPath u) = inr content).
  { rewrite Hfs. unfold fs_replace. rewrite String.eqb_refl. reflexivity. }
  match type of Henc with
  | yaml_Encode _ ?d = _ => remember d as doc eqn:Hdoc
  end.
  assert (Htags : Version doc = updateConfigVersion /\ Kind doc = updateConfigKind /\
                  Enabled (Spec doc) = true).
  { subst doc. destruct (String.eqb (ActiveVersion (Status cfg)) desired); simpl; auto. }
  destruct Htags as (Hv' & Hk' & Hen).
  pose proof (readConfig_written (ConfigPath u) doc content
                (mkState (st_fs s1) (st_world s1)) Hrt Henc Hfile Hv' Hk') as Hread.
  clear Hdoc.
  exists doc, content. split; [exact Henc|]. split; [exact Hfile|].
  unfold run, Disable in H2. exec H2.
  all: match goal with
       | Hr : readConfig _ _ _ = (_, ?s, _) |- _ =>
           is_var s; rewrite Hread in Hr;
           first [discriminate Hr | inversion Hr; subst; clear Hr]
       end.
  all: try (rewrite Hen in *; discriminate).
  all: match goal with
       | Hw : writeConfig _ _ _ _ = _ |- _ =>
           apply writeConfig_inv in Hw;
           destruct Hw as [(? & Hr & Hfs' & Ht) | (? & Henc' & Hr & Hfs' & Ht)];
           use_eq Hr
       end.
  all: first [ left; eexists; split; [reflexivity|]; split; [assumption | reflexivity]
             | right; eexists; split; [reflexivity|]; split; [eassumption|];
               split; [assumption | reflexivity] ].
Qed.

(** X17.  A run of [Disable] that returns an error has changed no file
    and replaced none: either the config could not be read, or it was
    read with updates enabled and could not be written. *)
Theorem Disable_error_leaves_config fs w e s' tr :
  run (Disable env u) fs w = (Err e, s', tr) ->
  st_fs s' = fs /\ tr = [] /\
  ((exists e0,
      e = Errorfw "failed to read %s: %w" [updateConfigName] e0 /\
      readConfig env (ConfigPath u) (mkState fs w) = (Err e0, mkState fs w, [])) \/
   (exists e0 cfg,
      e = Errorfw "failed to write %s: %w" [updateConfigName] e0 /\
      readConfig env (ConfigPath u) (mkState fs w) = (Ok cfg, mkState fs w, []) /\
      Enabled (Spec cfg) = true)).
Proof.
  intros H. unfold run, Disable in H. exec H.
  all: repeat match goal with
       | Hr : readConfig _ _ ?s = (_, ?s1, ?t) |- _ =>
           lazymatch s1 with s => fail | _ => idtac end;
           let H1 := fresh in let H2 := fresh in
           destruct (readConfig_inv _ _ _ _ _ Hr) as [H1 H2]; subst s1 t
       end.
  all: try match goal with
       | Hw : writeConfig _ _ _ _ = _ |- _ =>
           apply writeConfig_inv in Hw;
           destruct Hw as [(? & Hr & Hfs' & Ht) | (? & Henc' & Hr & Hfs' & Ht)];
           use_eq Hr
       end.
  all: bools.
  all: split; [cbn [st_fs] in *; congruence|]; split; [reflexivity|].
  - right. eexists. eexists. split; [reflexivity|]. split; [eassumption|].
    assumption.
  - left. eexists. split; [reflexivity | eassumption].
Qed.

(** ** Before the first call *)

(** X18.  A run of [Enable] calls something, or logs, exactly when the
    config could be read, the merged spec is valid and the proxy address
    parses.  A run without any event has returned an error and left the
    state as it was. *)
Theorem Enable_calls_only_with_valid_config override fs w res s' tr :
  run (Enable env u override) fs w = (res, s', tr) ->
  (tr <> [] <->
   exists cfg spec addr,
     readConfig env (ConfigPath u) (mkState fs w) = (Ok cfg, mkState fs w, []) /\
     validateConfigSpec (Spec cfg) override = (spec, None) /\
     libutils_ParseAddr env (Proxy spec) = inr addr) /\
  (tr = [] -> s' = mkState fs w /\ exists e, res = Err e).
Proof.
  intros H. walk H.
  all: try open_lookup; try open_install.
  all: split; [split; [intros Hne | intros (cfg & spec & addr & Hload & Hval & Hparse)]
              | intros Hnil].
  (* no event: the run stopped before the first call *)
  all: try (split; [reflexivity | eexists; reflexivity]).
  all: try (exfalso; apply Hne; reflexivity).
  (* some event: the three steps had succeeded *)
  all: try (do 3 eexists; split; [eassumption|]; split; [eassumption|]; simpl in *; eassumption).
  (* the three steps succeed: an event follows *)
  all: try same_config Hload.
  all: try match goal with
       | E : validateConfigSpec ?a ?b = _, E' : validateConfigSpec ?a ?b = _ |- _ =>
           rewrite E in E'; first [ discriminate E' | inversion E'; subst; clear E' ]
       end.
  all: try (simpl in *; congruence).
  all: try (intros Hnil).
  all: repeat match goal with
       | Hx : (_ ++ _)%list = [] |- _ =>
           apply app_eq_nil in Hx; let Hy := fresh in destruct Hx as [Hy Hx]
       end.
  all: discriminate.
Qed.

(** ** The first run on a host *)

(** Merging into the empty spec gives the overrides. *)
Lemma validateConfigSpec_zeroSpec override spec e :
  validateConfigSpec zeroSpec override = (spec, e) ->
  spec = mkUpdateSpec (override_Proxy override) (override_Group override)
           (override_URLTemplate override) false.
Proof.
  unfold validateConfigSpec, zeroSpec. intros H.
  destruct (String.eqb (override_Proxy override) "") eqn:Ep,
           (String.eqb (override_Group override) "") eqn:Eg,
           (String.eqb (override_URLTemplate override) "") eqn:Et.
  all: simpl in H.
  all: rewrite ?String.eqb_eq in *.
  all: rewrite ?Ep, ?Eg, ?Et.
  all: repeat match type of H with
       | (if ?b then _ else _) = _ => destruct b
       end.
  all: injection H as <- _; reflexivity.
Qed.

(** X19.  [Enable] on a host without a config file, when it returns
    nil: the proxy was given as an override; the document written has
    the expected tags, the overrides as its spec with [Enabled] true,
    the installed version as active version and no backup version;
    nothing was removed, and [Reload] was called once, after the one
    [Sync]. *)
Theorem Enable_on_fresh_host override fs w err s' tr :
  fs (ConfigPath u) = inl err ->
  errors_Is err fs_ErrNotExist = true ->
  run (Enable env u override) fs w = (Ok tt, s', tr) ->
  exists desired content,
    yaml_Encode env
      (mkUpdateConfig updateConfigVersion updateConfigKind
         (mkUpdateSpec (override_Proxy override) (override_Group override)
            (override_URLTemplate override) true)
         (mkUpdateStatus desired "")) = inr content /\
    st_fs s' (ConfigPath u) = inr content /\
    override_Proxy override <> "" /\
    desired <> "" /\
    In (EvLink desired None) tr /\
    (forall v r, ~ In (EvRemove v r) tr) /\
    exists r, process_calls tr = [EvSync None; EvReload r].
Proof.
  intros Hfile Hne H.
  destruct (Enable_ok_shape _ _ _ _ _ H)
    as (cfg & spec & desired & content & Hload & Hval & Hd & Henc & Hfs & Hlink & _ & Hpc & Hrm).
  assert (Hcfg : cfg = mkUpdateConfig updateConfigVersion updateConfigKind zeroSpec zeroStatus).
  { unfold readConfig, os_Open, bind in Hload. cbn [st_fs] in Hload.
    rewrite Hfile, Hne in Hload. unfold ret in Hload. congruence. }
  subst cfg.
  match type of Henc with
  | context [String.eqb ?a desired] =>
      assert (Ea : String.eqb a desired = false)
        by (apply String.eqb_neq; simpl; congruence);
      rewrite Ea in Henc
  end.
  pose proof (validateConfigSpec_valid _ _ _ Hval) as [Hp _].
  apply validateConfigSpec_zeroSpec in Hval. subst spec.
  cbn [set_Enabled set_Status set_Spec Version Kind Spec Status Proxy Group URLTemplate
       Enabled ActiveVersion BackupVersion zeroStatus zeroSpec] in *.
  exists desired, content.
  split; [exact Henc|].
  split; [rewrite Hfs; unfold fs_replace; rewrite String.eqb_refl; reflexivity|].
  split; [exact Hp|]. split; [exact Hd|]. split; [exact Hlink|].
  split; [intros v r Hin; destruct (Hrm _ _ Hin) as [-> Hv]; apply Hv; reflexivity|].
  destruct Hpc as [[_ Heq] | (r & Hpc & _)]; [congruence | eauto].
Qed.

(** ** A failed write *)

(** The errors of [validateConfigSpec] wrap nothing. *)
Lemma validateConfigSpec_error spec0 override spec e :
  validateConfigSpec spec0 override = (spec, Some e) ->
  exists format args, e = Errorf format args.
Proof.
  unfold validateConfigSpec. intros H.
  repeat match type of H with
         | (if ?b then _ else _) = _ => destruct b
         end.
  all: first [ discriminate H | injection H as _ <-; eexists; eexists; reflexivity ].
Qed.

(** X20.  A run of [Enable] that returns the error of a failed write
    had got through every step before: a version is linked, [Sync]
    returned nil, [Reload], if called, returned nil or [ErrNotNeeded],
    and the versions were listed.  The failure is not compensated: the
    revert closure is not called, while the config file is as it was. *)
Theorem Enable_write_failure override fs w e s' tr :
  run (Enable env u override) fs w =
    (Err (Errorfw "failed to write %s: %w" [updateConfigName] e), s', tr) ->
  (exists desired, In (EvLink desired None) tr) /\
  (process_calls tr = [EvSync None] \/
   exists r,
     process_calls tr = [EvSync None; EvReload r] /\
     (r = None \/ exists e', r = Some e' /\ errors_Is e' ErrNotNeeded = true)) /\
  (exists versions, In (EvList (inr versions)) tr) /\
  st_fs s' = fs /\
  (forall path content, ~ In (EvReplace path content) tr).
Proof.
  intros H. walk H.
  all: try open_lookup;
    repeat match goal with
    | Hr : match ?res with inl _ => _ | inr _ => _ end |- _ =>
        destruct res; [|destruct Hr as [[? Hr] | [? Hr]]]
    end;
    repeat match goal with Hr : _ = _ :> result _ |- _ => use_eq Hr end.
  all: try match goal with
       | E : validateConfigSpec _ _ = (_, Some _) |- _ =>
           apply validateConfigSpec_error in E; destruct E as (? & ? & ->);
           unfold trace_Wrap in *; discriminate
       end.
  all: try open_install.
  all: try open_sync.
  all: try open_restart.
  all: try open_cleanup.
  all: note_calls; simpl app.
  all: split; [eexists; in_trace|].
  all: split; [goal_calls is_process_call;
               repeat match goal with
                      | Hc : process_calls _ = _ |- _ => rewrite Hc; clear Hc
                      end; simpl; first [left; reflexivity | right; eexists; split; [reflexivity | assumption]] |].
  all: split; [match goal with
               | Hx : In (EvList (inr ?l)) _ |- _ => exists l; in_trace
               end|].
  all: split; [fs_chain | intros ? ? Hx; split_in Hx].
Qed.

End Properties.

(** * The properties at work

    Each theorem above, applied to a run of the scripted platform. *)

Module Scenarios.

Import Scripted.

Lemma get_put_field s rest : get_field (put_field s rest) = Some (s, rest).
Proof.
  induction s as [|c s IH]; simpl; [reflexivity|]. rewrite IH. reflexivity.
Qed.

(** The stand-in codec decodes what it encoded. *)
Lemma decode_encode (d : UpdateConfig) (c : string) :
  yaml_Encode platform d = inr c -> yaml_Decode platform c = inr d.
Proof.
  simpl. intros H. injection H as <-. unfold decode, encode.
  rewrite !get_put_field.
  destruct d as [v k [p g t e] [a b]]; simpl. destruct e; reflexivity.
Qed.

(** C1 at work: [Install] fails for want of disk space on a fresh host;
    there is still no config file. *)
Lemma Enable_error_leaves_config_witness :
  run (Enable platform updater (proxy_override "example.com")) no_files
    [Ping ping_15_1; FailWith (errors_New "no space left on device")] =
    (Err (Errorfw "failed to install: %w" [] (errors_New "no space left on device")),
     mkState no_files [],
     [EvFind find_config (inr ping_15_1);
      EvInstall "15.1.0" cdnURITemplate 1%Z (Some (errors_New "no space left on device"))]) /\
  st_fs (mkState no_files ([] : World)) = no_files /\
  forall path content,
    ~ In (EvReplace path content)
        [EvFind find_config (inr ping_15_1);
         EvInstall "15.1.0" cdnURITemplate 1%Z (Some (errors_New "no space left on device"))].
Proof.
  assert (Hrun :
    run (Enable platform updater (proxy_override "example.com")) no_files
      [Ping ping_15_1; FailWith (errors_New "no space left on device")] =
      (Err (Errorfw "failed to install: %w" [] (errors_New "no space left on device")),
       mkState no_files [],
       [EvFind find_config (inr ping_15_1);
        EvInstall "15.1.0" cdnURITemplate 1%Z (Some (errors_New "no space left on device"))]))
    by reflexivity.
  split; [exact Hrun|].
  exact (proj1 (Enable_error_leaves_config World platform updater _ _ _ _ _ _ Hrun)
           _ eq_refl).
Defined.

(** C2 at work: the upgrade of a host running 15.0.0 to 15.1.0.  [Reload]
    is called, and the config written has 15.1.0 active and 15.0.0 as
    the backup. *)
Lemma Enable_reload_iff_version_changed_witness :
  readConfig platform (ConfigPath updater) (mkState host_15_0 [Ping ping_15_1]) =
    (Ok (config "example.com" true "15.0.0" ""), mkState host_15_0 [Ping ping_15_1], []) /\
  run (Enable platform updater (proxy_override "")) host_15_0 [Ping ping_15_1] =
    (Ok tt,
     mkState (fs_replace (ConfigPath updater) (encode upgraded) host_15_0) [],
     [EvFind find_config (inr ping_15_1);
      EvInstall "15.1.0" cdnURITemplate 1%Z None;
      EvLink "15.1.0" None;
      EvSync None;
      EvLog LevelInfo "Target version successfully installed.";
      EvReload None;
      EvLog LevelInfo "Backup version set.";
      EvList (inr []);
      EvReplace (ConfigPath updater) (encode upgraded);
      EvLog LevelInfo "Configuration updated."]) /\
  (exists doc content,
     yaml_Encode platform doc = inr content /\
     fs_replace (ConfigPath updater) (encode upgraded) host_15_0 =
       fs_replace (ConfigPath updater) content host_15_0 /\
     ActiveVersion (Status doc) = "15.1.0" /\
     BackupVersion (Status doc) = "15.0.0").
Proof.
  assert (Hload :
    readConfig platform (ConfigPath updater) (mkState host_15_0 [Ping ping_15_1]) =
      (Ok (config "example.com" true "15.0.0" ""), mkState host_15_0 [Ping ping_15_1], []))
    by reflexivity.
  assert (Hrun :
    run (Enable platform updater (proxy_override "")) host_15_0 [Ping ping_15_1] =
      (Ok tt,
       mkState (fs_replace (ConfigPath updater) (encode upgraded) host_15_0) [],
       [EvFind find_config (inr ping_15_1);
        EvInstall "15.1.0" cdnURITemplate 1%Z None;
        EvLink "15.1.0" None;
        EvSync None;
        EvLog LevelInfo "Target version successfully installed.";
        EvReload None;
        EvLog LevelInfo "Backup version set.";
        EvList (inr []);
        EvReplace (ConfigPath updater) (encode upgraded);
        EvLog LevelInfo "Configuration updated."]))
    by reflexivity.
  split; [exact Hload|]. split; [exact Hrun|].
  destruct (Enable_reload_iff_version_changed World platform updater
              _ _ _ _ _ _ _ _ _ "15.1.0" [EvReload None] Hload Hrun)
    as (_ & Hdiffer & _).
  - simpl. auto.
  - reflexivity.
  - destruct Hdiffer as (r & tail' & Htail & Hgo); [discriminate|].
    injection Htail as <- <-.
    destruct Hgo as (_ & _ & Hdoc); [left; reflexivity|].
    exact (Hdoc eq_refl).
Defined.

(** C3 at work: the new unit file is rejected by [Sync]; the links are
    reverted, the second [Sync] fails too, and the error returned is the
    one of the first. *)
Lemma Enable_sync_failure_witness :
  run (Enable platform updater (proxy_override "")) host_15_0
    [Ping ping_15_1; Succeed; Succeed; FailWith (errors_New "invalid unit file");
     Reverted true; FailWith (errors_New "still invalid")] =
    (Err (Errorfw "failed to validate configuration for new version %q of Teleport: %w"
            ["15.1.0"] (errors_New "invalid unit file")),
     mkState host_15_0 [],
     [EvFind find_config (inr ping_15_1);
      EvInstall "15.1.0" cdnURITemplate 1%Z None;
      EvLink "15.1.0" None;
      EvSync (Some (errors_New "invalid unit file"));
      EvLog LevelError "Reverting symlinks due to invalid configuration.";
      EvRevert true;
      EvSync (Some (errors_New "still invalid"));
      EvLog LevelError "Failed to sync configuration after failed restart.";
      EvLog LevelWarn
        "Teleport updater encountered a configuration error and successfully reverted the installation."]) /\
  process_calls
    [EvFind find_config (inr ping_15_1);
     EvInstall "15.1.0" cdnURITemplate 1%Z None;
     EvLink "15.1.0" None;
     EvSync (Some (errors_New "invalid unit file"));
     EvLog LevelError "Reverting symlinks due to invalid configuration.";
     EvRevert true;
     EvSync (Some (errors_New "still invalid"));
     EvLog LevelError "Failed to sync configuration after failed restart.";
     EvLog LevelWarn
       "Teleport updater encountered a configuration error and successfully reverted the installation."] =
    EvSync (Some (errors_New "invalid unit file"))
      :: [EvRevert true; EvSync (Some (errors_New "still invalid"))] /\
  exists desired,
    @Err unit
      (Errorfw "failed to validate configuration for new version %q of Teleport: %w"
         ["15.1.0"] (errors_New "invalid unit file")) =
    Err (Errorfw "failed to validate configuration for new version %q of Teleport: %w"
           [desired] (errors_New "invalid unit file")).
Proof.
  assert (Hrun :
    run (Enable platform updater (proxy_override "")) host_15_0
      [Ping ping_15_1; Succeed; Succeed; FailWith (errors_New "invalid unit file");
       Reverted true; FailWith (errors_New "still invalid")] =
      (Err (Errorfw "failed to validate configuration for new version %q of Teleport: %w"
              ["15.1.0"] (errors_New "invalid unit file")),
       mkState host_15_0 [],
       [EvFind find_config (inr ping_15_1);
        EvInstall "15.1.0" cdnURITemplate 1%Z None;
        EvLink "15.1.0" None;
        EvSync (Some (errors_New "invalid unit file"));
        EvLog LevelError "Reverting symlinks due to invalid configuration.";
        EvRevert true;
        EvSync (Some (errors_New "still invalid"));
        EvLog LevelError "Failed to sync configuration after failed restart.";
        EvLog LevelWarn
          "Teleport updater encountered a configuration error and successfully reverted the installation."]))
    by reflexivity.
  split; [exact Hrun|]. split; [reflexivity|].
  destruct (proj2 (Enable_sync_failure World platform updater _ _ _ _ _ _ _ _
                     Hrun eq_refl) eq_refl)
    as (_ & desired & _ & Hres).
  exists desired. exact Hres.
Defined.

(** C4 at work: the proxy advertises 15.1.0 to a host running 15.0.0 with
    the backup 14.3.0; [Remove] of the backup fails, a warning is logged,
    and the upgrade goes on. *)
Lemma Enable_removes_stale_backup_witness :
  readConfig platform (ConfigPath updater)
    (mkState host_15_0_backup_14_3 [Ping ping_15_1; FailWith ErrLinked]) =
    (Ok (config "example.com" true "15.0.0" "14.3.0"),
     mkState host_15_0_backup_14_3 [Ping ping_15_1; FailWith ErrLinked], []) /\
  run (Enable platform updater (proxy_override "")) host_15_0_backup_14_3
    [Ping ping_15_1; FailWith ErrLinked] =
    (Ok tt,
     mkState (fs_replace (ConfigPath updater) (encode upgraded) host_15_0_backup_14_3) [],
     [EvFind find_config (inr ping_15_1);
      EvRemove "14.3.0" (Some ErrLinked);
      EvLog LevelWarn "Failed to remove backup version of Teleport before new install.";
      EvInstall "15.1.0" cdnURITemplate 1%Z None;
      EvLink "15.1.0" None;
      EvSync None;
      EvLog LevelInfo "Target version successfully installed.";
      EvReload None;
      EvLog LevelInfo "Backup version set.";
      EvList (inr []);
      EvReplace (ConfigPath updater) (encode upgraded);
      EvLog LevelInfo "Configuration updated."]) /\
  ("14.3.0" <> "" /\ "14.3.0" <> "15.1.0" /\ "14.3.0" <> "15.0.0" /\ "15.1.0" <> "15.0.0").
Proof.
  assert (Hload :
    readConfig platform (ConfigPath updater)
      (mkState host_15_0_backup_14_3 [Ping ping_15_1; FailWith ErrLinked]) =
      (Ok (config "example.com" true "15.0.0" "14.3.0"),
       mkState host_15_0_backup_14_3 [Ping ping_15_1; FailWith ErrLinked], []))
    by reflexivity.
  assert (Hrun :
    run (Enable platform updater (proxy_override "")) host_15_0_backup_14_3
      [Ping ping_15_1; FailWith ErrLinked] =
      (Ok tt,
       mkState (fs_replace (ConfigPath updater) (encode upgraded) host_15_0_backup_14_3) [],
       [EvFind find_config (inr ping_15_1);
        EvRemove "14.3.0" (Some ErrLinked);
        EvLog LevelWarn "Failed to remove backup version of Teleport before new install.";
        EvInstall "15.1.0" cdnURITemplate 1%Z None;
        EvLink "15.1.0" None;
        EvSync None;
        EvLog LevelInfo "Target version successfully installed.";
        EvReload None;
        EvLog LevelInfo "Backup version set.";
        EvList (inr []);
        EvReplace (ConfigPath updater) (encode upgraded);
        EvLog LevelInfo "Configuration updated."]))
    by reflexivity.
  split; [exact Hload|]. split; [exact Hrun|].
  apply (proj1 (Enable_removes_stale_backup World platform updater _ _ _ _ _ _ _ _ _
                  Hload Hrun) "15.1.0" cdnURITemplate 1%Z None).
  - simpl. auto 6.
  - exists "14.3.0", (Some ErrLinked). simpl. auto.
Defined.

(** C5 at work: a forced version on a fresh host, with no discovery and
    no flag; and the upgrade of [host_15_0], where the proxy advertises
    the enterprise build 15.1.0 and that build is installed. *)
Lemma Enable_target_version_witness :
  (run (Enable platform updater (force_override "example.com" "15.2.0")) no_files [] =
     (Ok tt,
      mkState (fs_replace (ConfigPath updater)
                 (encode (config "example.com" true "15.2.0" "")) no_files) [],
      [EvInstall "15.2.0" cdnURITemplate 0%Z None;
       EvLink "15.2.0" None;
       EvSync None;
       EvLog LevelInfo "Target version successfully installed.";
       EvReload None;
       EvList (inr []);
       EvReplace (ConfigPath updater) (encode (config "example.com" true "15.2.0" ""));
       EvLog LevelInfo "Configuration updated."]) /\
   ForceVersion (force_override "example.com" "15.2.0") <> "" /\
   forall c r,
     ~ In (EvFind c r)
         [EvInstall "15.2.0" cdnURITemplate 0%Z None;
          EvLink "15.2.0" None;
          EvSync None;
          EvLog LevelInfo "Target version successfully installed.";
          EvReload None;
          EvList (inr []);
          EvReplace (ConfigPath updater) (encode (config "example.com" true "15.2.0" ""));
          EvLog LevelInfo "Configuration updated."]) /\
  (run (Enable platform updater (proxy_override "")) host_15_0 [Ping ping_15_1] =
     (Ok tt, mkState upgraded_host [], upgrade_trace) /\
   In (EvFind find_config (inr ping_15_1)) upgrade_trace /\
   AutoUpdate_AgentVersion ping_15_1 <> "" /\
   exists t r, In (EvInstall "15.1.0" t FlagEnterprise r) upgrade_trace).
Proof.
  assert (Hrun :
    run (Enable platform updater (force_override "example.com" "15.2.0")) no_files [] =
      (Ok tt,
       mkState (fs_replace (ConfigPath updater)
                  (encode (config "example.com" true "15.2.0" "")) no_files) [],
       [EvInstall "15.2.0" cdnURITemplate 0%Z None;
        EvLink "15.2.0" None;
        EvSync None;
        EvLog LevelInfo "Target version successfully installed.";
        EvReload None;
        EvList (inr []);
        EvReplace (ConfigPath updater) (encode (config "example.com" true "15.2.0" ""));
        EvLog LevelInfo "Configuration updated."]))
    by reflexivity.
  assert (Hforce : ForceVersion (force_override "example.com" "15.2.0") <> "")
    by discriminate.
  assert (Hrun2 :
    run (Enable platform updater (proxy_override "")) host_15_0 [Ping ping_15_1] =
      (Ok tt, mkState upgraded_host [], upgrade_trace))
    by reflexivity.
  assert (Hfind : In (EvFind find_config (inr ping_15_1)) upgrade_trace)
    by (left; reflexivity).
  assert (Hversion : AutoUpdate_AgentVersion ping_15_1 <> "")
    by discriminate.
  split.
  - split; [exact Hrun|]. split; [exact Hforce|].
    exact (proj1 (proj1 (Enable_target_version World platform updater _ _ _ _ _ _ Hrun)
                    Hforce)).
  - split; [exact Hrun2|]. split; [exact Hfind|]. split; [exact Hversion|].
    exact (proj2 (proj2 (proj2 (proj2
             (Enable_target_version World platform updater _ _ _ _ _ _ Hrun2))))
             _ _ Hfind Hversion).
Defined.

(** C6 at work: the upgrade to 15.1.0, and [Enable] once more while the
    proxy still advertises 15.1.0; the second run validates the
    installation and writes the same document again. *)
Lemma Enable_idempotent_witness :
  (forall d c, yaml_Encode platform d = inr c -> yaml_Decode platform c = inr d) /\
  run (Enable platform updater (proxy_override "")) host_15_0
    [Ping ping_15_1; Succeed; Succeed; Succeed; Succeed; Versions ["15.0.0"; "15.1.0"];
     Succeed; Succeed; Ping ping_15_1] =
    (Ok tt,
     mkState (fs_replace (ConfigPath updater) (encode upgraded) host_15_0) [Ping ping_15_1],
     [EvFind find_config (inr ping_15_1);
      EvInstall "15.1.0" cdnURITemplate 1%Z None;
      EvLink "15.1.0" None;
      EvSync None;
      EvLog LevelInfo "Target version successfully installed.";
      EvReload None;
      EvLog LevelInfo "Backup version set.";
      EvList (inr ["15.0.0"; "15.1.0"]);
      EvReplace (ConfigPath updater) (encode upgraded);
      EvLog LevelInfo "Configuration updated."]) /\
  run (Enable platform updater (proxy_override ""))
    (fs_replace (ConfigPath updater) (encode upgraded) host_15_0) [Ping ping_15_1] =
    (Ok tt,
     mkState (fs_replace (ConfigPath updater) (encode upgraded)
                (fs_replace (ConfigPath updater) (encode upgraded) host_15_0)) [],
     [EvFind find_config (inr ping_15_1);
      EvInstall "15.1.0" cdnURITemplate 1%Z None;
      EvLink "15.1.0" None;
      EvSync None;
      EvLog LevelInfo "Target version successfully validated.";
      EvLog LevelInfo "Backup version set.";
      EvList (inr []);
      EvReplace (ConfigPath updater) (encode upgraded);
      EvLog LevelInfo "Configuration updated."]) /\
  forall path,
    fs_replace (ConfigPath updater) (encode upgraded)
      (fs_replace (ConfigPath updater) (encode upgraded) host_15_0) path =
    fs_replace (ConfigPath updater) (encode upgraded) host_15_0 path.
Proof.
  assert (Hrun1 :
    run (Enable platform updater (proxy_override "")) host_15_0
      [Ping ping_15_1; Succeed; Succeed; Succeed; Succeed; Versions ["15.0.0"; "15.1.0"];
       Succeed; Succeed; Ping ping_15_1] =
      (Ok tt,
       mkState (fs_replace (ConfigPath updater) (encode upgraded) host_15_0) [Ping ping_15_1],
       [EvFind find_config (inr ping_15_1);
        EvInstall "15.1.0" cdnURITemplate 1%Z None;
        EvLink "15.1.0" None;
        EvSync None;
        EvLog LevelInfo "Target version successfully installed.";
        EvReload None;
        EvLog LevelInfo "Backup version set.";
        EvList (inr ["15.0.0"; "15.1.0"]);
        EvReplace (ConfigPath updater) (encode upgraded);
        EvLog LevelInfo "Configuration updated."]))
    by reflexivity.
  assert (Hrun2 :
    run (Enable platform updater (proxy_override ""))
      (fs_replace (ConfigPath updater) (encode upgraded) host_15_0) [Ping ping_15_1] =
      (Ok tt,
       mkState (fs_replace (ConfigPath updater) (encode upgraded)
                  (fs_replace (ConfigPath updater) (encode upgraded) host_15_0)) [],
       [EvFind find_config (inr ping_15_1);
        EvInstall "15.1.0" cdnURITemplate 1%Z None;
        EvLink "15.1.0" None;
        EvSync None;
        EvLog LevelInfo "Target version successfully validated.";
        EvLog LevelInfo "Backup version set.";
        EvList (inr []);
        EvReplace (ConfigPath updater) (encode upgraded);
        EvLog LevelInfo "Configuration updated."]))
    by reflexivity.
  split; [exact decode_encode|]. split; [exact Hrun1|]. split; [exact Hrun2|].
  apply (Enable_idempotent World platform updater _ _ _ _ _ _ _ decode_encode Hrun1 Hrun2).
  intros c1 r1 c2 r2 [H1 | H1] [H2 | H2];
    solve [ injection H1 as _ <-; injection H2 as _ <-; reflexivity
          | simpl in H1, H2; intuition discriminate ].
Defined.

(** C7 refuted: [List] fails with a permission error after everything
    else succeeded, and [Enable] returns an error; the config on disk is
    still the one of 15.0.0. *)
Lemma Enable_list_error_counterexample :
  run (Enable platform updater (proxy_override "")) host_15_0
    [Ping ping_15_1; Succeed; Succeed; Succeed; Succeed;
     FailWith (errors_New "permission denied")] =
    (Err (Errorfw "failed to list installed versions: %w" []
            (errors_New "permission denied")),
     mkState host_15_0 [],
     [EvFind find_config (inr ping_15_1);
      EvInstall "15.1.0" cdnURITemplate 1%Z None;
      EvLink "15.1.0" None;
      EvSync None;
      EvLog LevelInfo "Target version successfully installed.";
      EvReload None;
      EvLog LevelInfo "Backup version set.";
      EvList (inl (errors_New "permission denied"))]).
Proof.
  reflexivity.
Qed.

(** C7, amended, at work: three versions are listed; the warning is
    logged and the config is written. *)
Lemma Enable_list_error_aborts_witness :
  run (Enable platform updater (proxy_override "")) host_15_0
    [Ping ping_15_1; Succeed; Succeed; Succeed; Succeed;
     Versions ["14.3.0"; "15.0.0"; "15.1.0"]] =
    (Ok tt,
     mkState (fs_replace (ConfigPath updater) (encode upgraded) host_15_0) [],
     [EvFind find_config (inr ping_15_1);
      EvInstall "15.1.0" cdnURITemplate 1%Z None;
      EvLink "15.1.0" None;
      EvSync None;
      EvLog LevelInfo "Target version successfully installed.";
      EvReload None;
      EvLog LevelInfo "Backup version set.";
      EvList (inr ["14.3.0"; "15.0.0"; "15.1.0"]);
      EvLog LevelWarn
        "More than 2 versions of Teleport installed. Version directory may need cleanup to save space.";
      EvReplace (ConfigPath updater) (encode upgraded);
      EvLog LevelInfo "Configuration updated."]) /\
  ((@Ok unit tt = Ok tt /\
    exists content,
      In (EvReplace (ConfigPath updater) content)
        [EvFind find_config (inr ping_15_1);
         EvInstall "15.1.0" cdnURITemplate 1%Z None;
         EvLink "15.1.0" None;
         EvSync None;
         EvLog LevelInfo "Target version successfully installed.";
         EvReload None;
         EvLog LevelInfo "Backup version set.";
         EvList (inr ["14.3.0"; "15.0.0"; "15.1.0"]);
         EvLog LevelWarn
           "More than 2 versions of Teleport installed. Version directory may need cleanup to save space.";
         EvReplace (ConfigPath updater) (encode upgraded);
         EvLog LevelInfo "Configuration updated."]) \/
   exists e, @Ok unit tt = Err (Errorfw "failed to write %s: %w" [updateConfigName] e)).
Proof.
  assert (Hrun :
    run (Enable platform updater (proxy_override "")) host_15_0
      [Ping ping_15_1; Succeed; Succeed; Succeed; Succeed;
       Versions ["14.3.0"; "15.0.0"; "15.1.0"]] =
      (Ok tt,
       mkState (fs_replace (ConfigPath updater) (encode upgraded) host_15_0) [],
       [EvFind find_config (inr ping_15_1);
        EvInstall "15.1.0" cdnURITemplate 1%Z None;
        EvLink "15.1.0" None;
        EvSync None;
        EvLog LevelInfo "Target version successfully installed.";
        EvReload None;
        EvLog LevelInfo "Backup version set.";
        EvList (inr ["14.3.0"; "15.0.0"; "15.1.0"]);
        EvLog LevelWarn
          "More than 2 versions of Teleport installed. Version directory may need cleanup to save space.";
        EvReplace (ConfigPath updater) (encode upgraded);
        EvLog LevelInfo "Configuration updated."]))
    by reflexivity.
  split; [exact Hrun|].
  apply (proj2 (Enable_list_error_aborts World platform updater _ _ _ _ _ _ Hrun)
           ["14.3.0"; "15.0.0"; "15.1.0"]).
  simpl. auto 10.
Defined.

(** C8 refuted: on a host without systemd [Sync] returns
    [ErrNotSupported]; the links are reverted and [Enable] returns an
    error.  Likewise when it is [Reload] that returns
    [ErrNotSupported].  The config on disk is still the one of 15.0.0. *)
Lemma Enable_not_supported_counterexample :
  run (Enable platform updater (proxy_override "")) host_15_0
    [Ping ping_15_1; Succeed; Succeed; FailWith ErrNotSupported] =
    (Err (Errorfw "failed to validate configuration for new version %q of Teleport: %w"
            ["15.1.0"] ErrNotSupported),
     mkState host_15_0 [],
     [EvFind find_config (inr ping_15_1);
      EvInstall "15.1.0" cdnURITemplate 1%Z None;
      EvLink "15.1.0" None;
      EvSync (Some ErrNotSupported);
      EvLog LevelError "Reverting symlinks due to invalid configuration.";
      EvRevert true;
      EvSync None;
      EvLog LevelWarn
        "Teleport updater encountered a configuration error and successfully reverted the installation."]) /\
  run (Enable platform updater (proxy_override "")) host_15_0
    [Ping ping_15_1; Succeed; Succeed; Succeed; FailWith ErrNotSupported] =
    (Err (Errorfw "failed to start new version %q of Teleport: %w"
            ["15.1.0"] ErrNotSupported),
     mkState host_15_0 [],
     [EvFind find_config (inr ping_15_1);
      EvInstall "15.1.0" cdnURITemplate 1%Z None;
      EvLink "15.1.0" None;
      EvSync None;
      EvLog LevelInfo "Target version successfully installed.";
      EvReload (Some ErrNotSupported);
      EvLog LevelError "Reverting symlinks due to failed restart.";
      EvRevert true;
      EvSync None;
      EvReload None;
      EvLog LevelWarn
        "Teleport updater encountered a configuration error and successfully reverted the installation."]).
Proof.
  split; reflexivity.
Qed.

(** C8, amended, at work: [Reload] returns an error wrapping
    [ErrNotSupported], and the revert closure fails; the error names
    15.1.0, the version linked. *)
Lemma Enable_not_supported_is_a_failure_witness :
  run (Enable platform updater (proxy_override "")) host_15_0
    [Ping ping_15_1; Succeed; Succeed; Succeed;
     FailWith (Errorfw "reload: %w" [] ErrNotSupported); Reverted false] =
    (Err (Errorfw "failed to start new version %q of Teleport: %w"
            ["15.1.0"] (Errorfw "reload: %w" [] ErrNotSupported)),
     mkState host_15_0 [], reload_not_supported_trace) /\
  errors_Is (Errorfw "reload: %w" [] ErrNotSupported) ErrNotSupported = true /\
  (exists ok rest', [EvRevert false] = EvRevert ok :: rest') /\
  (exists desired,
     In (EvLink desired None) reload_not_supported_trace /\
     @Err unit (Errorfw "failed to start new version %q of Teleport: %w"
                  ["15.1.0"] (Errorfw "reload: %w" [] ErrNotSupported)) =
     Err (Errorfw "failed to start new version %q of Teleport: %w"
            [desired] (Errorfw "reload: %w" [] ErrNotSupported))) /\
  st_fs (mkState host_15_0 ([] : World)) = host_15_0 /\
  (forall path content, ~ In (EvReplace path content) reload_not_supported_trace).
Proof.
  assert (Hrun :
    run (Enable platform updater (proxy_override "")) host_15_0
      [Ping ping_15_1; Succeed; Succeed; Succeed;
       FailWith (Errorfw "reload: %w" [] ErrNotSupported); Reverted false] =
      (Err (Errorfw "failed to start new version %q of Teleport: %w"
              ["15.1.0"] (Errorfw "reload: %w" [] ErrNotSupported)),
       mkState host_15_0 [], reload_not_supported_trace))
    by reflexivity.
  assert (Hns : errors_Is (Errorfw "reload: %w" [] ErrNotSupported) ErrNotSupported = true)
    by reflexivity.
  split; [exact Hrun|]. split; [exact Hns|].
  exact (proj2 (Enable_not_supported_is_a_failure World platform updater _ _ _ _ _ _ _
                  Hrun Hns) [EvRevert false] eq_refl).
Defined.

(** C9 at work: [Disable] on the host running 15.0.0 with updates
    enabled. *)
Lemma Disable_is_a_config_write_witness :
  run (Disable platform updater) host_15_0 [] =
    (Ok tt,
     mkState (fs_replace (ConfigPath updater)
                (encode (config "example.com" false "15.0.0" "")) host_15_0) [],
     [EvReplace (ConfigPath updater) (encode (config "example.com" false "15.0.0" ""))]) /\
  installer_calls
    [EvReplace (ConfigPath updater) (encode (config "example.com" false "15.0.0" ""))] = [] /\
  process_calls
    [EvReplace (ConfigPath updater) (encode (config "example.com" false "15.0.0" ""))] = [].
Proof.
  assert (Hrun :
    run (Disable platform updater) host_15_0 [] =
      (Ok tt,
       mkState (fs_replace (ConfigPath updater)
                  (encode (config "example.com" false "15.0.0" "")) host_15_0) [],
       [EvReplace (ConfigPath updater) (encode (config "example.com" false "15.0.0" ""))]))
    by reflexivity.
  split; [exact Hrun|].
  destruct (Disable_is_a_config_write World platform updater _ _ _ _ _ Hrun)
    as (_ & Hi & Hp & _).
  split; [exact Hi | exact Hp].
Defined.

(** C10 at work: a forced version and a proxy address with a space in
    it, on a fresh host. *)
Lemma Enable_parses_proxy_with_forced_version_witness :
  ForceVersion (force_override "a b" "15.2.0") <> "" /\
  readConfig platform (ConfigPath updater) (mkState no_files []) =
    (Ok (mkUpdateConfig updateConfigVersion updateConfigKind zeroSpec zeroStatus),
     mkState no_files [], []) /\
  validateConfigSpec zeroSpec (force_override "a b" "15.2.0") =
    (mkUpdateSpec "a b" "" "" false, None) /\
  libutils_ParseAddr platform "a b" = inl (errors_New "failed to parse address") /\
  run (Enable platform updater (force_override "a b" "15.2.0")) no_files [] =
    (Err (Errorfw "failed to parse proxy server address: %w" []
            (errors_New "failed to parse address")),
     mkState no_files [], []).
Proof.
  assert (Hforce : ForceVersion (force_override "a b" "15.2.0") <> "") by discriminate.
  assert (Hload :
    readConfig platform (ConfigPath updater) (mkState no_files []) =
      (Ok (mkUpdateConfig updateConfigVersion updateConfigKind zeroSpec zeroStatus),
       mkState no_files [], []))
    by reflexivity.
  assert (Hval :
    validateConfigSpec zeroSpec (force_override "a b" "15.2.0") =
      (mkUpdateSpec "a b" "" "" false, None))
    by reflexivity.
  assert (Hparse :
    libutils_ParseAddr platform "a b" = inl (errors_New "failed to parse address"))
    by reflexivity.
  repeat (split; [assumption|]).
  exact (Enable_parses_proxy_with_forced_version World platform updater
           _ _ _ _ _ _ _ _ Hforce Hload Hval Hparse).
Defined.


(** ** The further properties at work *)

(** X1 at work: the config of an upgraded host, written to an empty
    file system and read back. *)
Lemma writeConfig_then_readConfig_witness :
  writeConfig platform (ConfigPath updater) upgraded (mkState no_files []) =
    (Ok tt, mkState (with_config upgraded) [],
     [EvReplace (ConfigPath updater) (encode upgraded)]) /\
  readConfig platform (ConfigPath updater) (mkState (with_config upgraded) []) =
    (Ok upgraded, mkState (with_config upgraded) [], []).
Proof.
  assert (Hw :
    writeConfig platform (ConfigPath updater) upgraded (mkState no_files []) =
      (Ok tt, mkState (with_config upgraded) [],
       [EvReplace (ConfigPath updater) (encode upgraded)]))
    by reflexivity.
  split; [exact Hw|].
  exact (writeConfig_then_readConfig World platform _ upgraded _ _ _
           decode_encode eq_refl eq_refl Hw).
Defined.

(** X2 at work: a document of kind "role" is written, and refused when
    read. *)
Lemma writeConfig_then_readConfig_bad_tags_witness :
  let role := mkUpdateConfig updateConfigVersion "role" zeroSpec zeroStatus in
  writeConfig platform (ConfigPath updater) role (mkState no_files []) =
    (Ok tt, mkState (with_config role) [],
     [EvReplace (ConfigPath updater) (encode role)]) /\
  readConfig platform (ConfigPath updater) (mkState (with_config role) []) =
    (Err (Errorf "invalid kind %q" ["role"]), mkState (with_config role) [], []).
Proof.
  intros role.
  assert (Hw :
    writeConfig platform (ConfigPath updater) role (mkState no_files []) =
      (Ok tt, mkState (with_config role) [],
       [EvReplace (ConfigPath updater) (encode role)]))
    by reflexivity.
  split; [exact Hw|].
  apply (proj1 (writeConfig_then_readConfig_bad_tags World platform _ _ _ _ _
                  decode_encode Hw)).
  simpl. discriminate.
Defined.


(** X4 at work: [Disable] on a host with no file. *)
Lemma Disable_without_config_witness :
  no_files (ConfigPath updater) = inl fs_ErrNotExist /\
  run (Disable platform updater) no_files [Succeed] =
    (Ok tt, mkState no_files [Succeed],
     [EvLog LevelInfo "Automatic updates already disabled."]).
Proof.
  split; [reflexivity|].
  exact (Disable_without_config World platform updater no_files [Succeed]
           fs_ErrNotExist eq_refl eq_refl).
Defined.

(** X5 at work: a group and a mirror are merged into the spec of
    [host_15_0]; the proxy and [Enabled] stay. *)
Lemma validateConfigSpec_merges_witness :
  validateConfigSpec (Spec (config "example.com" true "15.0.0" "")) staging_override =
    (staging_spec, None) /\
  Proxy staging_spec = "example.com" /\
  Group staging_spec = "staging" /\
  URLTemplate staging_spec = override_URLTemplate staging_override /\
  Enabled staging_spec = true /\
  Proxy staging_spec <> "" /\
  (URLTemplate staging_spec = "" \/
   strings_HasPrefix (strings_ToLower (URLTemplate staging_spec)) "https://" = true).
Proof.
  assert (Hval :
    validateConfigSpec (Spec (config "example.com" true "15.0.0" "")) staging_override =
      (staging_spec, None))
    by reflexivity.
  split; [exact Hval|].
  exact (validateConfigSpec_merges _ _ _ Hval).
Defined.

(** X6 at work: a plain-http mirror and no proxy; the error is the one
    about TLS. *)
Lemma validateConfigSpec_errors_witness :
  let spec := mkUpdateSpec "" "" "http://mirror.example.com/teleport.tgz" false in
  validateConfigSpec zeroSpec plain_http_override =
    (spec, Some (Errorf "Teleport download URL must use TLS (https://)" [])) /\
  ((Errorf "Teleport download URL must use TLS (https://)" [] =
      Errorf "Teleport download URL must use TLS (https://)" [] /\
    URLTemplate spec <> "" /\
    strings_HasPrefix (strings_ToLower (URLTemplate spec)) "https://" = false) \/
   (Errorf "Teleport download URL must use TLS (https://)" [] =
      Errorf "Teleport proxy URL must be specified with --proxy or present in %s"
        [updateConfigName] /\
    Proxy spec = "" /\
    (URLTemplate spec = "" \/
     strings_HasPrefix (strings_ToLower (URLTemplate spec)) "https://" = true))).
Proof.
  intros spec.
  assert (Hval :
    validateConfigSpec zeroSpec plain_http_override =
      (spec, Some (Errorf "Teleport download URL must use TLS (https://)" [])))
    by reflexivity.
  split; [exact Hval|].
  exact (validateConfigSpec_errors _ _ _ _ Hval).
Defined.

(** X7 at work: the merged spec of X5, merged again. *)
Lemma validateConfigSpec_idempotent_witness :
  validateConfigSpec (Spec (config "example.com" true "15.0.0" "")) staging_override =
    (staging_spec, None) /\
  validateConfigSpec staging_spec staging_override = (staging_spec, None).
Proof.
  assert (Hval :
    validateConfigSpec (Spec (config "example.com" true "15.0.0" "")) staging_override =
      (staging_spec, None))
    by reflexivity.
  split; [exact Hval|].
  exact (validateConfigSpec_idempotent _ _ _ Hval).
Defined.

(** X8 at work: the upgrade of [host_15_0]; the document written is
    read back. *)
Lemma Enable_persists_valid_config_witness :
  run (Enable platform updater (proxy_override "")) host_15_0 [Ping ping_15_1] =
    (Ok tt, mkState upgraded_host [], upgrade_trace) /\
  exists doc content,
    yaml_Encode platform doc = inr content /\
    upgraded_host (ConfigPath updater) = inr content /\
    Version doc = updateConfigVersion /\
    Kind doc = updateConfigKind /\
    Enabled (Spec doc) = true /\
    Proxy (Spec doc) <> "" /\
    (URLTemplate (Spec doc) = "" \/
     strings_HasPrefix (strings_ToLower (URLTemplate (Spec doc))) "https://" = true) /\
    readConfig platform (ConfigPath updater) (mkState upgraded_host []) =
      (Ok doc, mkState upgraded_host [], []).
Proof.
  assert (Hrun :
    run (Enable platform updater (proxy_override "")) host_15_0 [Ping ping_15_1] =
      (Ok tt, mkState upgraded_host [], upgrade_trace))
    by reflexivity.
  split; [exact Hrun|].
  destruct (Enable_persists_valid_config World platform updater _ _ _ _ _ Hrun)
    as (doc & content & Henc & Hfile & Hv & Hk & Hen & Hp & Ht & Hread).
  exists doc, content.
  repeat (split; [assumption|]).
  exact (Hread decode_encode).
Defined.

(** X9 at work: the upgrade of [host_15_0]; the active version written
    is the version linked. *)
Lemma Enable_persists_linked_version_witness :
  run (Enable platform updater (proxy_override "")) host_15_0 [Ping ping_15_1] =
    (Ok tt, mkState upgraded_host [], upgrade_trace) /\
  exists doc content,
    yaml_Encode platform doc = inr content /\
    upgraded_host (ConfigPath updater) = inr content /\
    ActiveVersion (Status doc) <> "" /\
    In (EvLink (ActiveVersion (Status doc)) None) upgrade_trace /\
    (forall d r, In (EvLink d r) upgrade_trace ->
                 d = ActiveVersion (Status doc) /\ r = None) /\
    (forall ok, ~ In (EvRevert ok) upgrade_trace).
Proof.
  assert (Hrun :
    run (Enable platform updater (proxy_override "")) host_15_0 [Ping ping_15_1] =
      (Ok tt, mkState upgraded_host [], upgrade_trace))
    by reflexivity.
  split; [exact Hrun|].
  exact (Enable_persists_linked_version World platform updater _ _ _ _ _ Hrun).
Defined.

(** X10 at work: the upgrade of [host_15_0], where [Reload] is called;
    the backup version written is not the active version written. *)
Lemma Enable_keeps_backup_distinct_witness :
  readConfig platform (ConfigPath updater) (mkState host_15_0 [Ping ping_15_1]) =
    (Ok (config "example.com" true "15.0.0" ""), mkState host_15_0 [Ping ping_15_1], []) /\
  run (Enable platform updater (proxy_override "")) host_15_0 [Ping ping_15_1] =
    (Ok tt, mkState upgraded_host [], upgrade_trace) /\
  In (EvReload None) upgrade_trace /\
  exists doc content,
    yaml_Encode platform doc = inr content /\
    upgraded_host (ConfigPath updater) = inr content /\
    BackupVersion (Status doc) <> ActiveVersion (Status doc).
Proof.
  assert (Hload :
    readConfig platform (ConfigPath updater) (mkState host_15_0 [Ping ping_15_1]) =
      (Ok (config "example.com" true "15.0.0" ""), mkState host_15_0 [Ping ping_15_1], []))
    by reflexivity.
  assert (Hrun :
    run (Enable platform updater (proxy_override "")) host_15_0 [Ping ping_15_1] =
      (Ok tt, mkState upgraded_host [], upgrade_trace))
    by reflexivity.
  assert (Hin : In (EvReload None) upgrade_trace) by (simpl; tauto).
  split; [exact Hload|]. split; [exact Hrun|]. split; [exact Hin|].
  destruct (Enable_keeps_backup_distinct World platform updater _ _ _ _ _ _ _ _ Hload Hrun)
    as (doc & content & Henc & Hfile & Hreload & _).
  exists doc, content. split; [exact Henc|]. split; [exact Hfile|].
  apply Hreload. exists None. exact Hin.
Defined.

(** X11 at work: the upgrade of [host_15_0] where the unit fails to
    start; the link is reverted, [Sync] returns nil, [Reload] fails
    again, and [Enable] returns the first failure. *)
Lemma Enable_reload_failure_witness :
  run (Enable platform updater (proxy_override "")) host_15_0
    [Ping ping_15_1; Succeed; Succeed; Succeed;
     FailWith (errors_New "unit failed to start");
     Reverted true; Succeed; FailWith (errors_New "unit failed again")] =
    (Err (Errorfw "failed to start new version %q of Teleport: %w"
            ["15.1.0"] (errors_New "unit failed to start")),
     mkState host_15_0 [], failed_restart_trace) /\
  process_calls failed_restart_trace =
    EvSync None :: EvReload (Some (errors_New "unit failed to start"))
      :: [EvRevert true; EvSync None; EvReload (Some (errors_New "unit failed again"))] /\
  (exists desired,
     In (EvLink desired None) failed_restart_trace /\
     @Err unit (Errorfw "failed to start new version %q of Teleport: %w"
                  ["15.1.0"] (errors_New "unit failed to start")) =
     Err (Errorfw "failed to start new version %q of Teleport: %w"
            [desired] (errors_New "unit failed to start"))) /\
  (forall listed, ~ In (EvList listed) failed_restart_trace).
Proof.
  assert (Hrun :
    run (Enable platform updater (proxy_override "")) host_15_0
      [Ping ping_15_1; Succeed; Succeed; Succeed;
       FailWith (errors_New "unit failed to start");
       Reverted true; Succeed; FailWith (errors_New "unit failed again")] =
      (Err (Errorfw "failed to start new version %q of Teleport: %w"
              ["15.1.0"] (errors_New "unit failed to start")),
       mkState host_15_0 [], failed_restart_trace))
    by reflexivity.
  split; [exact Hrun|]. split; [reflexivity|].
  destruct (Enable_reload_failure World platform updater _ _ _ _ _ _ _ _
              Hrun eq_refl eq_refl)
    as (_ & Hfail & Hlist).
  split; [exact (proj2 (Hfail eq_refl)) | exact Hlist].
Defined.

(** X12 at work: the upgrade of [host_15_0] where [Link] finds a link
    in its way. *)
Lemma Enable_install_or_link_failure_witness :
  run (Enable platform updater (proxy_override "")) host_15_0
    [Ping ping_15_1; Succeed; FailWith (errors_New "link exists")] =
    (Err (Errorfw "failed to link: %w" [] (errors_New "link exists")),
     mkState host_15_0 [], failed_link_trace) /\
  In (EvLink "15.1.0" (Some (errors_New "link exists"))) failed_link_trace /\
  @Err unit (Errorfw "failed to link: %w" [] (errors_New "link exists")) =
    Err (Errorfw "failed to link: %w" [] (errors_New "link exists")) /\
  (exists t f, In (EvInstall "15.1.0" t f None) failed_link_trace) /\
  (forall listed, ~ In (EvList listed) failed_link_trace) /\
  process_calls failed_link_trace = [].
Proof.
  assert (Hrun :
    run (Enable platform updater (proxy_override "")) host_15_0
      [Ping ping_15_1; Succeed; FailWith (errors_New "link exists")] =
      (Err (Errorfw "failed to link: %w" [] (errors_New "link exists")),
       mkState host_15_0 [], failed_link_trace))
    by reflexivity.
  assert (Hin : In (EvLink "15.1.0" (Some (errors_New "link exists"))) failed_link_trace)
    by (simpl; tauto).
  split; [exact Hrun|]. split; [exact Hin|].
  exact (proj2 (Enable_install_or_link_failure World platform updater _ _ _ _ _ _ Hrun)
           _ _ Hin).
Defined.

(** X13 at work: the [Install] of the upgrade of [host_15_0], from the
    CDN default, with the enterprise flag. *)
Lemma Enable_install_arguments_witness :
  run (Enable platform updater (proxy_override "")) host_15_0 [Ping ping_15_1] =
    (Ok tt, mkState upgraded_host [], upgrade_trace) /\
  In (EvInstall "15.1.0" cdnURITemplate 1%Z None) upgrade_trace /\
  "15.1.0" <> "" /\
  strings_HasPrefix (strings_ToLower cdnURITemplate) "https://" = true /\
  Z.land 1 (Z.lor FlagEnterprise FlagFIPS) = 1%Z /\
  (forall d r', In (EvLink d r') upgrade_trace -> d = "15.1.0").
Proof.
  assert (Hrun :
    run (Enable platform updater (proxy_override "")) host_15_0 [Ping ping_15_1] =
      (Ok tt, mkState upgraded_host [], upgrade_trace))
    by reflexivity.
  assert (Hin : In (EvInstall "15.1.0" cdnURITemplate 1%Z None) upgrade_trace)
    by (simpl; tauto).
  split; [exact Hrun|]. split; [exact Hin|].
  destruct (Enable_install_arguments World platform updater _ _ _ _ _ _ _ _ _ _ Hrun Hin)
    as (Hv & Hp & _ & Hf & Hl).
  repeat split; assumption.
Defined.

(** X14 at work: the upgrade of [host_15_0_backup_14_3]: [Remove],
    [Install], [Link], [List]. *)
Lemma Enable_installer_call_order_witness :
  run (Enable platform updater (proxy_override "")) host_15_0_backup_14_3 [Ping ping_15_1] =
    (Ok tt,
     mkState (fs_replace (ConfigPath updater) (encode upgraded) host_15_0_backup_14_3) [],
     upgrade_with_backup_trace) /\
  installer_calls upgrade_with_backup_trace =
    [EvRemove "14.3.0" None; EvInstall "15.1.0" cdnURITemplate 1%Z None;
     EvLink "15.1.0" None; EvList (inr [])] /\
  exists rm,
    (rm = [] \/ exists v r, rm = [EvRemove v r]) /\
    ((installer_calls upgrade_with_backup_trace = [] /\ rm = []) \/
     (exists v t f e,
        installer_calls upgrade_with_backup_trace = rm ++ [EvInstall v t f (Some e)]) \/
     (exists v t f e,
        installer_calls upgrade_with_backup_trace =
          rm ++ [EvInstall v t f None; EvLink v (Some e)]) \/
     (exists v t f,
        installer_calls upgrade_with_backup_trace =
          rm ++ [EvInstall v t f None; EvLink v None] /\
        Ok tt <> Ok tt) \/
     (exists v t f listed,
        installer_calls upgrade_with_backup_trace =
          rm ++ [EvInstall v t f None; EvLink v None; EvList listed]))%list.
Proof.
  assert (Hrun :
    run (Enable platform updater (proxy_override "")) host_15_0_backup_14_3 [Ping ping_15_1] =
      (Ok tt,
       mkState (fs_replace (ConfigPath updater) (encode upgraded) host_15_0_backup_14_3) [],
       upgrade_with_backup_trace))
    by reflexivity.
  split; [exact Hrun|]. split; [reflexivity|].
  exact (Enable_installer_call_order World platform updater _ _ _ _ _ _ Hrun).
Defined.

(** X15 at work: the failed restart of X11: [Sync], [Reload], the
    revert closure, [Sync], [Reload]. *)
Lemma Enable_process_call_order_witness :
  run (Enable platform updater (proxy_override "")) host_15_0
    [Ping ping_15_1; Succeed; Succeed; Succeed;
     FailWith (errors_New "unit failed to start");
     Reverted true; Succeed; FailWith (errors_New "unit failed again")] =
    (Err (Errorfw "failed to start new version %q of Teleport: %w"
            ["15.1.0"] (errors_New "unit failed to start")),
     mkState host_15_0 [], failed_restart_trace) /\
  process_calls failed_restart_trace =
    [EvSync None; EvReload (Some (errors_New "unit failed to start"));
     EvRevert true; EvSync None; EvReload (Some (errors_New "unit failed again"))] /\
  (forall ev rest,
     process_calls failed_restart_trace = ev :: rest ->
     (exists r, ev = EvSync r) /\ exists d, In (EvLink d None) failed_restart_trace) /\
  (forall pre r post,
     process_calls failed_restart_trace = (pre ++ EvReload r :: post)%list ->
     exists pre', pre = (pre' ++ [EvSync None])%list) /\
  (forall pre ok post,
     process_calls failed_restart_trace = (pre ++ EvRevert ok :: post)%list ->
     (exists pre' e, pre = (pre' ++ [EvSync (Some e)])%list \/
                     pre = (pre' ++ [EvReload (Some e)])%list) /\
     (forall ok', ~ In (EvRevert ok') pre /\ ~ In (EvRevert ok') post) /\
     (ok = false -> post = []) /\
     (ok = true -> exists r post', post = EvSync r :: post')).
Proof.
  assert (Hrun :
    run (Enable platform updater (proxy_override "")) host_15_0
      [Ping ping_15_1; Succeed; Succeed; Succeed;
       FailWith (errors_New "unit failed to start");
       Reverted true; Succeed; FailWith (errors_New "unit failed again")] =
      (Err (Errorfw "failed to start new version %q of Teleport: %w"
              ["15.1.0"] (errors_New "unit failed to start")),
       mkState host_15_0 [], failed_restart_trace))
    by reflexivity.
  split; [exact Hrun|]. split; [reflexivity|].
  exact (Enable_process_call_order World platform updater _ _ _ _ _ _ Hrun).
Defined.

(** X16 at work: [Disable] after the upgrade of [host_15_0]; the
    document written is the upgraded one with [Enabled] false. *)
Lemma Enable_then_Disable_witness :
  let disabled := config "example.com" false "15.1.0" "15.0.0" in
  run (Enable platform updater (proxy_override "")) host_15_0 [Ping ping_15_1] =
    (Ok tt, mkState upgraded_host [], upgrade_trace) /\
  run (Disable platform updater) upgraded_host [] =
    (Ok tt, mkState (fs_replace (ConfigPath updater) (encode disabled) upgraded_host) [],
     [EvReplace (ConfigPath updater) (encode disabled)]) /\
  exists doc content,
    yaml_Encode platform doc = inr content /\
    upgraded_host (ConfigPath updater) = inr content /\
    ((exists e,
        Ok tt = Err (Errorfw "failed to write %s: %w" [updateConfigName] e) /\
        fs_replace (ConfigPath updater) (encode disabled) upgraded_host = upgraded_host /\
        [EvReplace (ConfigPath updater) (encode disabled)] = []) \/
     (exists content',
        Ok tt = Ok tt /\
        yaml_Encode platform (set_Enabled false doc) = inr content' /\
        fs_replace (ConfigPath updater) (encode disabled) upgraded_host =
          fs_replace (ConfigPath updater) content' upgraded_host /\
        [EvReplace (ConfigPath updater) (encode disabled)] =
          [EvReplace (ConfigPath updater) content'])).
Proof.
  intros disabled.
  assert (Hrun :
    run (Enable platform updater (proxy_override "")) host_15_0 [Ping ping_15_1] =
      (Ok tt, mkState upgraded_host [], upgrade_trace))
    by reflexivity.
  assert (Hrun2 :
    run (Disable platform updater) upgraded_host [] =
      (Ok tt, mkState (fs_replace (ConfigPath updater) (encode disabled) upgraded_host) [],
       [EvReplace (ConfigPath updater) (encode disabled)]))
    by reflexivity.
  split; [exact Hrun|]. split; [exact Hrun2|].
  exact (Enable_then_Disable World platform updater _ _ _ _ _ _ _ _
           decode_encode Hrun Hrun2).
Defined.

(** X17 at work: [Disable] on [host_15_0] when the file system is
    read-only. *)
Lemma Disable_error_leaves_config_witness :
  run (Disable platform updater) host_15_0 [FailWith (errors_New "read-only file system")] =
    (Err (Errorfw "failed to write %s: %w" [updateConfigName]
            (errors_New "read-only file system")),
     mkState host_15_0 [], []) /\
  st_fs (mkState host_15_0 ([] : World)) = host_15_0 /\
  ([] : list Event) = [] /\
  ((exists e0,
      Errorfw "failed to write %s: %w" [updateConfigName]
        (errors_New "read-only file system") =
      Errorfw "failed to read %s: %w" [updateConfigName] e0 /\
      readConfig platform (ConfigPath updater)
        (mkState host_15_0 [FailWith (errors_New "read-only file system")]) =
        (Err e0, mkState host_15_0 [FailWith (errors_New "read-only file system")], [])) \/
   (exists e0 cfg,
      Errorfw "failed to write %s: %w" [updateConfigName]
        (errors_New "read-only file system") =
      Errorfw "failed to write %s: %w" [updateConfigName] e0 /\
      readConfig platform (ConfigPath updater)
        (mkState host_15_0 [FailWith (errors_New "read-only file system")]) =
        (Ok cfg, mkState host_15_0 [FailWith (errors_New "read-only file system")], []) /\
      Enabled (Spec cfg) = true)).
Proof.
  assert (Hrun :
    run (Disable platform updater) host_15_0
      [FailWith (errors_New "read-only file system")] =
      (Err (Errorfw "failed to write %s: %w" [updateConfigName]
              (errors_New "read-only file system")),
       mkState host_15_0 [], []))
    by reflexivity.
  split; [exact Hrun|].
  exact (Disable_error_leaves_config World platform updater _ _ _ _ _ Hrun).
Defined.

(** X18 at work: [Enable] without a proxy on a host with no file: the
    discovery reply is still there to be taken. *)
Lemma Enable_calls_only_with_valid_config_witness :
  run (Enable platform updater (proxy_override "")) no_files [Ping ping_15_1] =
    (Err (Errorf "Teleport proxy URL must be specified with --proxy or present in %s"
            [updateConfigName]),
     mkState no_files [Ping ping_15_1], []) /\
  ~ (exists cfg spec addr,
       readConfig platform (ConfigPath updater) (mkState no_files [Ping ping_15_1]) =
         (Ok cfg, mkState no_files [Ping ping_15_1], []) /\
       validateConfigSpec (Spec cfg) (proxy_override "") = (spec, None) /\
       libutils_ParseAddr platform (Proxy spec) = inr addr).
Proof.
  assert (Hrun :
    run (Enable platform updater (proxy_override "")) no_files [Ping ping_15_1] =
      (Err (Errorf "Teleport proxy URL must be specified with --proxy or present in %s"
              [updateConfigName]),
       mkState no_files [Ping ping_15_1], []))
    by reflexivity.
  split; [exact Hrun|].
  intros Hvalid.
  exact (proj2 (proj1 (Enable_calls_only_with_valid_config World platform updater
                         _ _ _ _ _ _ Hrun)) Hvalid eq_refl).
Defined.

(** X19 at work: the first [Enable] on a host with no file. *)
Lemma Enable_on_fresh_host_witness :
  run (Enable platform updater (proxy_override "example.com")) no_files [Ping ping_15_1] =
    (Ok tt, mkState (with_config first_installed) [], first_install_trace) /\
  exists desired content,
    yaml_Encode platform
      (mkUpdateConfig updateConfigVersion updateConfigKind
         (mkUpdateSpec "example.com" "" "" true) (mkUpdateStatus desired "")) =
      inr content /\
    with_config first_installed (ConfigPath updater) = inr content /\
    "example.com" <> "" /\
    desired <> "" /\
    In (EvLink desired None) first_install_trace /\
    (forall v r, ~ In (EvRemove v r) first_install_trace) /\
    exists r, process_calls first_install_trace = [EvSync None; EvReload r].
Proof.
  assert (Hrun :
    run (Enable platform updater (proxy_override "example.com")) no_files [Ping ping_15_1] =
      (Ok tt, mkState (with_config first_installed) [], first_install_trace))
    by reflexivity.
  split; [exact Hrun|].
  exact (Enable_on_fresh_host World platform updater _ no_files _ fs_ErrNotExist _ _
           eq_refl eq_refl Hrun).
Defined.

(** X20 at work: the upgrade of [host_15_0] on a read-only file
    system: 15.1.0 is linked and running, the config says 15.0.0. *)
Lemma Enable_write_failure_witness :
  run (Enable platform updater (proxy_override "")) host_15_0
    [Ping ping_15_1; Succeed; Succeed; Succeed; Succeed;
     Versions ["15.0.0"; "15.1.0"]; FailWith (errors_New "read-only file system")] =
    (Err (Errorfw "failed to write %s: %w" [updateConfigName]
            (errors_New "read-only file system")),
     mkState host_15_0 [], failed_write_trace) /\
  (exists desired, In (EvLink desired None) failed_write_trace) /\
  (process_calls failed_write_trace = [EvSync None] \/
   exists r,
     process_calls failed_write_trace = [EvSync None; EvReload r] /\
     (r = None \/ exists e', r = Some e' /\ errors_Is e' ErrNotNeeded = true)) /\
  (exists versions, In (EvList (inr versions)) failed_write_trace) /\
  st_fs (mkState host_15_0 ([] : World)) = host_15_0 /\
  (forall path content, ~ In (EvReplace path content) failed_write_trace).
Proof.
  assert (Hrun :
    run (Enable platform updater (proxy_override "")) host_15_0
      [Ping ping_15_1; Succeed; Succeed; Succeed; Succeed;
       Versions ["15.0.0"; "15.1.0"]; FailWith (errors_New "read-only file system")] =
      (Err (Errorfw "failed to write %s: %w" [updateConfigName]
              (errors_New "read-only file system")),
       mkState host_15_0 [], failed_write_trace))
    by reflexivity.
  split; [exact Hrun|].
  exact (Enable_write_failure World platform updater _ _ _ _ _ _ Hrun).
Defined.

End Scenarios.
